(** * Imobiliaria: the listing search view [core/views.py]

    A shallow embedding of [lista_imoveis] and [detalhe_imovel] together
    with the part of the Django ORM they exercise (chained [filter] calls
    over the reverse relations [precos], [fotos] and [infraestrutura],
    [order_by], [distinct], [Paginator]).

    Conventions of the embedding:
    - the store is the list of [Imovel] rows in table order, each one
      carrying its related rows ([precos], [fotos], [infraestrutura]);
      the columns the view reads are taken to be non-null, and the exact
      lookups ([tipo], [mobilia], [finalidade]) to be case sensitive;
    - a queryset is the list of joined rows the SQL statement ranges over;
      joins are nested loops in table order and [ORDER BY] is a stable sort,
      which fixes the order SQL leaves open among ties;
    - [request.GET] is an association list in query-string order;
    - the Python builtins [int] and [float] and the collation dependent
      comparisons of the database are fields of the class [Backend], so
      every theorem holds for whatever they are.

    The behaviour of the ORM the model follows:
    - each [filter()] call that spans a multi-valued relation joins the
      related table under a fresh alias, so conditions of two calls may be
      met by two different related rows;
    - [distinct()] is SELECT DISTINCT over the selected columns, and every
      column of [order_by()] is one of them: in the words of the Django
      documentation of [distinct()], fields of a related model used for
      ordering "will be added to the selected columns and they may make
      otherwise duplicate rows appear to be distinct";
    - [count()] on a distinct queryset counts the rows of the subquery
      SELECT DISTINCT with the ordering cleared, hence distinct listings;
    - [Paginator.page] slices the ordered queryset between
      [(number - 1) * per_page] and [min(number * per_page, count)]. *)

From Stdlib Require Import List String Ascii ZArith Bool Lia Permutation Sorted.
From Stdlib Require QArith.
Import ListNotations.

Local Open Scope string_scope.
Local Open Scope Z_scope.
Local Open Scope list_scope.

(** ** External collaborators *)

(** What the view takes from Python and from the database backend.
    [py_int s = None] and [py_float s = None] stand for the [ValueError]
    (or [TypeError]) the [try] blocks of the view catch. [Num] is the
    domain of the numeric columns [area_util] and [valor]. *)
Class Backend : Type := {
  Num : Type;
  py_int : string -> option Z;
  py_float : string -> option Num;
  (* [num_leb a b]: the SQL comparison [a <= b] *)
  num_leb : Num -> Num -> bool;
  (* equality of two values under SELECT DISTINCT *)
  num_eqb : Num -> Num -> bool;
  (* whether ORDER BY places NULL below every value (SQLite, MySQL)
     or above every value (PostgreSQL, Oracle) *)
  null_smallest : bool;
  (* [icontains column needle], [iexact column value] *)
  icontains : string -> string -> bool;
  iexact : string -> string -> bool
}.

(** ** Generic list operations used by the ORM model *)

Section ListOps.
Context {A : Type}.

(** Stable insertion sort: the model of [ORDER BY]. *)
Fixpoint insert_by (leb : A -> A -> bool) (x : A) (l : list A) : list A :=
  match l with
  | [] => [x]
  | y :: t => if leb x y then x :: y :: t else y :: insert_by leb x t
  end.

Fixpoint sort_by (leb : A -> A -> bool) (l : list A) : list A :=
  match l with
  | [] => []
  | x :: t => insert_by leb x (sort_by leb t)
  end.

(** [SELECT DISTINCT]: every row equal to an earlier one is dropped. *)
Fixpoint distinct_by (eqb : A -> A -> bool) (l : list A) : list A :=
  match l with
  | [] => []
  | x :: t => x :: filter (fun y => negb (eqb x y)) (distinct_by eqb t)
  end.

(** Python slicing [l[bottom:top]] for [0 <= bottom]. *)
Definition slice (bottom top : nat) (l : list A) : list A :=
  firstn (top - bottom) (skipn bottom l).
End ListOps.

(** ** Python string helpers *)

(** The ASCII characters [str.isspace] accepts. *)
Definition is_space (c : ascii) : bool :=
  let n := nat_of_ascii c in
  ((9 <=? n) && (n <=? 13) || (28 <=? n) && (n <=? 32))%nat.

Fixpoint lstrip (s : string) : string :=
  match s with
  | String c t => if is_space c then lstrip t else s
  | EmptyString => EmptyString
  end.

Fixpoint rstrip (s : string) : string :=
  match s with
  | String c t =>
      match rstrip t with
      | EmptyString => if is_space c then EmptyString else String c EmptyString
      | t' => String c t'
      end
  | EmptyString => EmptyString
  end.

(** [s.strip()] *)
Definition strip (s : string) : string := rstrip (lstrip s).

(** Truthiness of a Python [str]: [if s:] *)
Definition nonempty (s : string) : bool := negb (String.eqb s "").

(** ** request.GET *)

(** A [QueryDict]: the pairs of the query string, in order. *)
Definition QueryDict := list (string * string).

(** [GET.getlist(key)]: every value given for [key], in order. *)
Definition getlist (key : string) (GET : QueryDict) : list string :=
  map snd (filter (fun kv => String.eqb (fst kv) key) GET).

(** [GET.get(key)]: the last value given for [key], [None] without one. *)
Definition get (key : string) (GET : QueryDict) : option string :=
  last (map Some (getlist key GET)) None.

(** [GET.get(key, default)] *)
Definition get_default (key default : string) (GET : QueryDict) : string :=
  match get key GET with Some v => v | None => default end.

(** The same query string with every occurrence of [key] left out. *)
Definition omit (key : string) (GET : QueryDict) : QueryDict :=
  filter (fun kv => negb (String.eqb (fst kv) key)) GET.

(** The same query string with the pairs [key=value] left out. *)
Definition omit_value (key value : string) (GET : QueryDict) : QueryDict :=
  filter (fun kv => negb (String.eqb (fst kv) key && String.eqb (snd kv) value)) GET.

(** ** Data model ([core/models.py], as the views and the admin use it) *)

(** [Imovel.StatusImovel] *)
Inductive StatusImovel : Type := ATIVO | VENDIDO | ALUGADO | RESERVADO | INATIVO.

Definition status_eqb (a b : StatusImovel) : bool :=
  match a, b with
  | ATIVO, ATIVO | VENDIDO, VENDIDO | ALUGADO, ALUGADO
  | RESERVADO, RESERVADO | INATIVO, INATIVO => true
  | _, _ => false
  end.

Section Model.
Context {B : Backend}.

(** A row of [PrecoPorFinalidade]. *)
Record PrecoPorFinalidade : Type := {
  preco_id : Z;
  finalidade : string;
  valor : Num
}.

(** A row of [FotoImovel]. *)
Record FotoImovel : Type := {
  foto_id : Z;
  eh_capa : bool;
  ordem : Z
}.

(** A row of [Imovel] with its related rows: [precos] and [fotos] are the
    reverse foreign keys, [infraestrutura] the primary keys of the
    [InfraCondominio] rows linked through the many-to-many table. *)
Record Imovel : Type := {
  pk : Z;
  titulo : string;
  descricao : string;
  tipo : string;
  status : StatusImovel;
  endereco : string;
  bairro : string;
  cidade : string;
  area_util : Num;
  quartos : Z;
  banheiros : Z;
  vagas_garagem : Z;
  mobilia : string;
  pet_friendly : bool;
  aceita_financiamento : bool;
  criado_em : Z;
  atualizado_em : Z;
  precos : list PrecoPorFinalidade;
  fotos : list FotoImovel;
  infraestrutura : list Z
}.

(** The store: the [Imovel] table. *)
Definition Store := list Imovel.

(** ** Querysets *)

(** One row of the join a queryset ranges over: the [Imovel] row and the
    [precos] rows joined so far, one per alias, the most recent alias
    first. The joins on [fotos] and on the many-to-many table repeat the
    row without adding a column any later step reads. *)
Record Row : Type := {
  imovel : Imovel;
  aliases : list PrecoPorFinalidade
}.

Definition QuerySet := list Row.

(** [Imovel.objects] *)
Definition objects (db : Store) : QuerySet :=
  map (fun i => {| imovel := i; aliases := [] |}) db.

(** [qs.filter(<condition on columns of Imovel>)]: a WHERE clause. *)
Definition filter_where (p : Imovel -> bool) (qs : QuerySet) : QuerySet :=
  filter (fun r => p (imovel r)) qs.

(** [qs.filter(precos__...=...)]: every [filter] call that spans the
    multi-valued relation [precos] joins the table again under a new
    alias (INNER JOIN) and constrains that alias only. *)
Definition filter_precos (p : PrecoPorFinalidade -> bool) (qs : QuerySet) : QuerySet :=
  flat_map (fun r =>
    map (fun e => {| imovel := imovel r; aliases := e :: aliases r |})
        (filter p (precos (imovel r)))) qs.

(** [qs.filter(fotos__isnull=False)]: INNER JOIN on [fotos]. *)
Definition filter_fotos (qs : QuerySet) : QuerySet :=
  flat_map (fun r => map (fun _ => r) (fotos (imovel r))) qs.

(** [qs.filter(infraestrutura=n)]: INNER JOIN on the many-to-many table,
    constrained to the amenity [n]. *)
Definition filter_infraestrutura (n : Z) (qs : QuerySet) : QuerySet :=
  flat_map (fun r => map (fun _ => r) (filter (Z.eqb n) (infraestrutura (imovel r)))) qs.

(** A selected row: the columns of [Imovel] and, when the ordering needs
    it, the extra column [precos.valor] ([None] is SQL NULL, or no extra
    column at all). *)
Definition Selected : Type := Imovel * option Num.

(** The SELECT list of an ordering on columns of [Imovel] itself. *)
Definition select_imovel (qs : QuerySet) : list Selected :=
  map (fun r => (imovel r, None)) qs.

(** The SELECT list of [order_by('precos__valor')] under [distinct()]:
    the ordering column is added to the selected columns. The ordering
    reuses the most recent join on [precos] when a filter made one, and
    otherwise joins the table itself with a LEFT OUTER JOIN. *)
Definition select_precos_valor (qs : QuerySet) : list Selected :=
  flat_map (fun r =>
    match aliases r with
    | e :: _ => [(imovel r, Some (valor e))]
    | [] =>
        match precos (imovel r) with
        | [] => [(imovel r, None)]
        | ps => map (fun e => (imovel r, Some (valor e))) ps
        end
    end) qs.

(** Two rows of the [Imovel] table are the same row when their primary
    keys are. *)
Definition pk_eqb (a b : Imovel) : bool := Z.eqb (pk a) (pk b).

Definition opt_eqb (a b : option Num) : bool :=
  match a, b with
  | None, None => true
  | Some x, Some y => num_eqb x y
  | _, _ => false
  end.

(** Equality of selected rows under DISTINCT. *)
Definition selected_eqb (a b : Selected) : bool :=
  pk_eqb (fst a) (fst b) && opt_eqb (snd a) (snd b).

(** [a <= b] on a nullable numeric column, for ORDER BY. *)
Definition opt_leb (a b : option Num) : bool :=
  match a, b with
  | None, None => true
  | None, Some _ => null_smallest
  | Some _, None => negb null_smallest
  | Some x, Some y => num_leb x y
  end.

(** The orderings of the view, as "comes no later than". *)
Definition by_valor_asc (a b : Selected) : bool := opt_leb (snd a) (snd b).
Definition by_valor_desc (a b : Selected) : bool := opt_leb (snd b) (snd a).
Definition by_criado_desc (a b : Selected) : bool :=
  criado_em (fst b) <=? criado_em (fst a).
Definition by_area_desc (a b : Selected) : bool :=
  num_leb (area_util (fst b)) (area_util (fst a)).
Definition by_criado_atualizado_desc (a b : Selected) : bool :=
  (criado_em (fst b) <? criado_em (fst a))
  || (criado_em (fst b) =? criado_em (fst a))
     && (atualizado_em (fst b) <=? atualizado_em (fst a)).

(** [qs.count()] on a [distinct()] queryset: COUNT over the subquery
    SELECT DISTINCT of the [Imovel] columns; the ordering, and with it
    the extra column, is cleared first. *)
Definition count (qs : QuerySet) : nat :=
  List.length (distinct_by pk_eqb (map imovel qs)).

(** ** django.core.paginator.Paginator *)

Definition per_page : nat := 12.

(** [Paginator.num_pages] with no orphans and an empty first page
    allowed: [ceil(max(1, count) / per_page)]. *)
Definition num_pages (cnt : nat) : nat :=
  (Nat.max 1 cnt + (per_page - 1)) / per_page.

(** [Paginator.get_page(number)]: a number that is no integer selects
    page 1, one out of range the last page. *)
Definition get_page_number (cnt : nat) (number : option string) : nat :=
  match number with
  | None => 1%nat
  | Some s =>
      match py_int s with
      | None => 1%nat
      | Some n =>
          if n <? 1 then num_pages cnt
          else if Z.of_nat (num_pages cnt) <? n then num_pages cnt
          else Z.to_nat n
      end
  end.

(** [Paginator.page(number)]: the slice [object_list[bottom:top]]. *)
Definition page_bounds (cnt number : nat) : nat * nat :=
  let bottom := ((number - 1) * per_page)%nat in
  let top := (bottom + per_page)%nat in
  let top := if (cnt <=? top)%nat then cnt else top in
  (bottom, top).
End Model.

(** ** The views *)

(** The outcome of a view that may raise. *)
Inductive Outcome (A : Type) : Type :=
| Rendered (a : A)
| Http404
| MultipleObjectsReturned.

Arguments Rendered {A} a.
Arguments Http404 {A}.
Arguments MultipleObjectsReturned {A}.

Section Views.
Context {B : Backend}.

(** [if value: qs = f(value, qs)]: [None] and the empty string are falsy. *)
Definition if_given (value : option string)
    (f : string -> QuerySet -> QuerySet) (qs : QuerySet) : QuerySet :=
  match value with
  | Some s => if nonempty s then f s qs else qs
  | None => qs
  end.

(** [try: qs = f(int(s), qs)  except (ValueError, TypeError): pass] *)
Definition try_int (f : Z -> QuerySet -> QuerySet) (s : string) (qs : QuerySet) : QuerySet :=
  match py_int s with
  | Some n => f n qs
  | None => qs
  end.

(** [try: qs = f(float(s), qs)  except (ValueError, TypeError): pass] *)
Definition try_float (f : Num -> QuerySet -> QuerySet) (s : string) (qs : QuerySet) : QuerySet :=
  match py_float s with
  | Some x => f x qs
  | None => qs
  end.

(** [if value == 'true': qs = f(qs)] *)
Definition if_true (value : option string)
    (f : QuerySet -> QuerySet) (qs : QuerySet) : QuerySet :=
  match value with
  | Some s => if String.eqb s "true" then f qs else qs
  | None => qs
  end.

(** The free-text condition: the Q objects joined by [|]. *)
Definition busca_match (busca : string) (i : Imovel) : bool :=
  icontains (titulo i) busca
  || icontains (endereco i) busca
  || icontains (bairro i) busca
  || icontains (cidade i) busca
  || icontains (descricao i) busca.

(** [lista_imoveis], the filters: the queryset before it is ordered. *)
Definition filtrar (db : Store) (GET : QueryDict) : QuerySet :=
  let imoveis := filter_where (fun i => status_eqb (status i) ATIVO) (objects db) in
  (* Busca por texto *)
  let busca := strip (get_default "busca" "" GET) in
  let imoveis :=
    if nonempty busca then filter_where (busca_match busca) imoveis else imoveis in
  (* Finalidade *)
  let imoveis := if_given (get "finalidade" GET)
    (fun v => filter_precos (fun e => String.eqb (finalidade e) v)) imoveis in
  (* Tipo de imovel *)
  let imoveis := if_given (get "tipo" GET)
    (fun v => filter_where (fun i => String.eqb (tipo i) v)) imoveis in
  (* Cidade *)
  let imoveis := if_given (get "cidade" GET)
    (fun v => filter_where (fun i => iexact (cidade i) v)) imoveis in
  (* Bairro *)
  let imoveis := if_given (get "bairro" GET)
    (fun v => filter_where (fun i => icontains (bairro i) v)) imoveis in
  (* Quartos minimos *)
  let imoveis := if_given (get "quartos" GET)
    (try_int (fun n => filter_where (fun i => n <=? quartos i))) imoveis in
  (* Banheiros minimos *)
  let imoveis := if_given (get "banheiros" GET)
    (try_int (fun n => filter_where (fun i => n <=? banheiros i))) imoveis in
  (* Vagas de garagem minimas *)
  let imoveis := if_given (get "vagas" GET)
    (try_int (fun n => filter_where (fun i => n <=? vagas_garagem i))) imoveis in
  (* Area minima *)
  let imoveis := if_given (get "area_min" GET)
    (try_float (fun x => filter_where (fun i => num_leb x (area_util i)))) imoveis in
  (* Preco minimo e maximo *)
  let imoveis := if_given (get "preco_min" GET)
    (try_float (fun x => filter_precos (fun e => num_leb x (valor e)))) imoveis in
  let imoveis := if_given (get "preco_max" GET)
    (try_float (fun x => filter_precos (fun e => num_leb (valor e) x))) imoveis in
  (* Mobilia *)
  let imoveis := if_given (get "mobilia" GET)
    (fun v => filter_where (fun i => String.eqb (mobilia i) v)) imoveis in
  (* Pet friendly *)
  let imoveis := if_true (get "pet_friendly" GET)
    (filter_where (fun i => pet_friendly i)) imoveis in
  (* Aceita financiamento *)
  let imoveis := if_true (get "financiamento" GET)
    (filter_where (fun i => aceita_financiamento i)) imoveis in
  (* Somente com fotos *)
  let imoveis := if_true (get "com_fotos" GET) filter_fotos imoveis in
  (* Infraestrutura do condominio: one filter call per id *)
  fold_left (fun qs infra_id => try_int filter_infraestrutura infra_id qs)
    (getlist "infraestrutura" GET) imoveis.

(** [lista_imoveis], the ordering: the ordered SELECT list and the value
    of [ordenacao] after the chain of tests. *)
Definition ordenar (ordenacao : string) (imoveis : QuerySet) : list Selected * string :=
  if String.eqb ordenacao "preco_menor" then
    (sort_by by_valor_asc (select_precos_valor imoveis), ordenacao)
  else if String.eqb ordenacao "preco_maior" then
    (sort_by by_valor_desc (select_precos_valor imoveis), ordenacao)
  else if String.eqb ordenacao "mais_recentes" then
    (sort_by by_criado_desc (select_imovel imoveis), ordenacao)
  else if String.eqb ordenacao "maior_area" then
    (sort_by by_area_desc (select_imovel imoveis), ordenacao)
  else
    (sort_by by_criado_atualizado_desc (select_imovel imoveis), "relevancia").

(** The rows of [imoveis] after [order_by(...)] and [distinct()]: what
    the paginator slices. *)
Definition resultado (db : Store) (GET : QueryDict) : list Selected :=
  distinct_by selected_eqb
    (fst (ordenar (get_default "ordenacao" "relevancia" GET) (filtrar db GET))).

(** ['filtros_aplicados'] *)
Record Filtros : Type := {
  f_busca : string;
  f_finalidade : option string;
  f_tipo : option string;
  f_cidade : option string;
  f_bairro : option string;
  f_quartos : option string;
  f_banheiros : option string;
  f_vagas : option string;
  f_area_min : option string;
  f_preco_min : option string;
  f_preco_max : option string;
  f_mobilia : option string;
  f_pet_friendly : option string;
  f_financiamento : option string;
  f_com_fotos : option string;
  f_infraestrutura : list string;
  f_ordenacao : string
}.

(** The template context of [lista_imoveis] (the choice lists that feed
    the filter form do not depend on the request and are left out). *)
Record ListaContext : Type := {
  page_obj : list Imovel;
  page_number : nat;
  total_imoveis : nat;
  filtros_aplicados : Filtros
}.

Definition lista_imoveis (db : Store) (GET : QueryDict) : ListaContext :=
  let imoveis := filtrar db GET in
  let ordenacao := snd (ordenar (get_default "ordenacao" "relevancia" GET) imoveis) in
  let total := count imoveis in
  let number := get_page_number total (get "page" GET) in
  let '(bottom, top) := page_bounds total number in
  {| page_obj := map fst (slice bottom top (resultado db GET));
     page_number := number;
     total_imoveis := total;
     filtros_aplicados :=
       {| f_busca := strip (get_default "busca" "" GET);
          f_finalidade := get "finalidade" GET;
          f_tipo := get "tipo" GET;
          f_cidade := get "cidade" GET;
          f_bairro := get "bairro" GET;
          f_quartos := get "quartos" GET;
          f_banheiros := get "banheiros" GET;
          f_vagas := get "vagas" GET;
          f_area_min := get "area_min" GET;
          f_preco_min := get "preco_min" GET;
          f_preco_max := get "preco_max" GET;
          f_mobilia := get "mobilia" GET;
          f_pet_friendly := get "pet_friendly" GET;
          f_financiamento := get "financiamento" GET;
          f_com_fotos := get "com_fotos" GET;
          f_infraestrutura := getlist "infraestrutura" GET;
          f_ordenacao := ordenacao |} |}.

(** The template context of [detalhe_imovel] (the WhatsApp message, a
    string built from the listing, is left out). *)
Record DetalheContext : Type := {
  d_imovel : Imovel;
  imoveis_similares : list Imovel
}.

(** [get_object_or_404(queryset, pk=pk, status=ATIVO)]: [queryset.get]
    returns the only row, raises [DoesNotExist] (turned into [Http404])
    without one and [MultipleObjectsReturned] with several. *)
Definition get_object_or_404 (db : Store) (key : Z) : Outcome Imovel :=
  match filter (fun i => Z.eqb (pk i) key && status_eqb (status i) ATIVO) db with
  | [] => Http404
  | [i] => Rendered i
  | _ :: _ :: _ => MultipleObjectsReturned
  end.

Definition detalhe_imovel (db : Store) (key : Z) : Outcome DetalheContext :=
  match get_object_or_404 db key with
  | Rendered i =>
      Rendered
        {| d_imovel := i;
           imoveis_similares :=
             firstn 4 (filter (fun j =>
               String.eqb (tipo j) (tipo i) && String.eqb (cidade j) (cidade i)
               && status_eqb (status j) ATIVO && negb (Z.eqb (pk j) (pk i))) db) |}
  | Http404 => Http404
  | MultipleObjectsReturned => MultipleObjectsReturned
  end.
End Views.

(** ** A reference backend *)

(** A concrete [Backend] to run the views on: the ASCII fragment of
    Python's [int], the exponent-free decimal fragment of [float] read as
    an exact rational, ASCII case folding for the case-insensitive
    lookups, and NULL ordered below every value. *)
Module Ref.
Import QArith.

Definition digit_of (c : ascii) : option Z :=
  let n := nat_of_ascii c in
  if ((48 <=? n) && (n <=? 57))%nat then Some (Z.of_nat (n - 48)) else None.

(** Decimal digits, single underscores allowed between two digits. *)
Fixpoint digits_acc (acc : Z) (after_digit : bool) (s : string) : option Z :=
  match s with
  | EmptyString => if after_digit then Some acc else None
  | String c t =>
      match digit_of c with
      | Some d => digits_acc (10 * acc + d) true t
      | None =>
          if Ascii.eqb c "_" && after_digit then digits_acc acc false t else None
      end
  end.

(** [int(s)] for an ASCII [s]. *)
Definition ref_int (s : string) : option Z :=
  match strip s with
  | String "+" t => digits_acc 0 false t
  | String "-" t => option_map Z.opp (digits_acc 0 false t)
  | t => digits_acc 0 false t
  end.

Fixpoint decimal_acc (num : Z) (scale : positive) (seen_point seen_digit : bool)
    (s : string) : option Q :=
  match s with
  | EmptyString => if seen_digit then Some (Qmake num scale) else None
  | String c t =>
      match digit_of c with
      | Some d =>
          decimal_acc (10 * num + d) (if seen_point then 10 * scale else scale)%positive
            seen_point true t
      | None =>
          if Ascii.eqb c "." && negb seen_point
          then decimal_acc num scale true seen_digit t
          else None
      end
  end.

(** [float(s)] for a decimal literal without exponent. *)
Definition ref_float (s : string) : option Q :=
  match strip s with
  | String "+" t => decimal_acc 0 1 false false t
  | String "-" t => option_map Qopp (decimal_acc 0 1 false false t)
  | t => decimal_acc 0 1 false false t
  end.

Definition lower_ascii (c : ascii) : ascii :=
  let n := nat_of_ascii c in
  if ((65 <=? n) && (n <=? 90))%nat then ascii_of_nat (n + 32) else c.

Fixpoint lower (s : string) : string :=
  match s with
  | EmptyString => EmptyString
  | String c t => String (lower_ascii c) (lower t)
  end.

Fixpoint contains (hay needle : string) : bool :=
  String.prefix needle hay
  || match hay with
     | EmptyString => false
     | String _ t => contains t needle
     end.

#[export] Instance backend : Backend := {|
  Num := Q;
  py_int := ref_int;
  py_float := ref_float;
  num_leb := Qle_bool;
  num_eqb := Qeq_bool;
  null_smallest := true;
  icontains := fun column needle => contains (lower column) (lower needle);
  iexact := fun column value => String.eqb (lower column) (lower value)
|}.

(** A listing with the given key, timestamps, area, prices and
    amenities, and default values elsewhere. *)
Definition anuncio (key : Z) (st : StatusImovel) (criado area : Z)
    (ps : list PrecoPorFinalidade) (infra : list Z) : Imovel :=
  {| pk := key; titulo := "Casa"; descricao := ""; tipo := "casa";
     status := st; endereco := "Rua A"; bairro := "Centro";
     cidade := "Springfield"; area_util := inject_Z area;
     quartos := 2; banheiros := 1; vagas_garagem := 1;
     mobilia := "sem_mobilia"; pet_friendly := false;
     aceita_financiamento := false;
     criado_em := criado; atualizado_em := criado;
     precos := ps; fotos := []; infraestrutura := infra |}.

Definition preco (id : Z) (f : string) (v : Z) : PrecoPorFinalidade :=
  {| preco_id := id; finalidade := f; valor := inject_Z v |}.
End Ref.

(** ** The facets as predicates on a listing *)

(** The same query string with [key] given once, as [value]. *)
Definition set_param (key value : string) (GET : QueryDict) : QueryDict :=
  omit key GET ++ [(key, value)].

Section Facets.
Context {B : Backend}.

(** A listing is in a queryset when one of its joined rows is. *)
Definition has (i : Imovel) (qs : QuerySet) : Prop := In i (map imovel qs).

(** The condition a facet puts on a listing, each in the shape of the
    statement that applies it. *)
Definition facet (value : option string) (p : string -> Imovel -> bool)
    (i : Imovel) : bool :=
  match value with
  | Some s => if nonempty s then p s i else true
  | None => true
  end.

Definition parsed {T : Type} (parse : string -> option T) (p : T -> Imovel -> bool)
    (s : string) (i : Imovel) : bool :=
  match parse s with
  | Some n => p n i
  | None => true
  end.

Definition flag (value : option string) (p : Imovel -> bool) (i : Imovel) : bool :=
  match value with
  | Some s => if String.eqb s "true" then p i else true
  | None => true
  end.

Definition has_preco (p : PrecoPorFinalidade -> bool) (i : Imovel) : bool :=
  existsb p (precos i).

Definition has_fotos (i : Imovel) : bool :=
  match fotos i with [] => false | _ :: _ => true end.

Definition has_infra (n : Z) (i : Imovel) : bool :=
  existsb (Z.eqb n) (infraestrutura i).

(** The listing passes every facet the request applies: the semi-join
    reading of [filtrar], one EXISTS per join. *)
Definition qualifies (GET : QueryDict) (i : Imovel) : bool :=
  status_eqb (status i) ATIVO
  && (let busca := strip (get_default "busca" "" GET) in
      if nonempty busca then busca_match busca i else true)
  && facet (get "finalidade" GET)
       (fun v => has_preco (fun e => String.eqb (finalidade e) v)) i
  && facet (get "tipo" GET) (fun v i => String.eqb (tipo i) v) i
  && facet (get "cidade" GET) (fun v i => iexact (cidade i) v) i
  && facet (get "bairro" GET) (fun v i => icontains (bairro i) v) i
  && facet (get "quartos" GET) (parsed py_int (fun n i => n <=? quartos i)) i
  && facet (get "banheiros" GET) (parsed py_int (fun n i => n <=? banheiros i)) i
  && facet (get "vagas" GET) (parsed py_int (fun n i => n <=? vagas_garagem i)) i
  && facet (get "area_min" GET)
       (parsed py_float (fun x i => num_leb x (area_util i))) i
  && facet (get "preco_min" GET)
       (parsed py_float (fun x => has_preco (fun e => num_leb x (valor e)))) i
  && facet (get "preco_max" GET)
       (parsed py_float (fun x => has_preco (fun e => num_leb (valor e) x))) i
  && facet (get "mobilia" GET) (fun v i => String.eqb (mobilia i) v) i
  && flag (get "pet_friendly" GET) (fun i => pet_friendly i) i
  && flag (get "financiamento" GET) (fun i => aceita_financiamento i) i
  && flag (get "com_fotos" GET) has_fotos i
  && forallb (fun s => parsed py_int has_infra s i) (getlist "infraestrutura" GET).

(** The facet predicates of the search, written out: what a returned
    listing must satisfy for each facet the request supplies. *)
Record satisfies_facets (GET : QueryDict) (i : Imovel) : Prop := {
  sf_status : status i = ATIVO;
  sf_busca :
    let busca := strip (get_default "busca" "" GET) in
    busca <> "" -> busca_match busca i = true;
  sf_finalidade : forall v, get "finalidade" GET = Some v -> v <> "" ->
    exists e, In e (precos i) /\ finalidade e = v;
  sf_tipo : forall v, get "tipo" GET = Some v -> v <> "" -> tipo i = v;
  sf_cidade : forall v, get "cidade" GET = Some v -> v <> "" ->
    iexact (cidade i) v = true;
  sf_bairro : forall v, get "bairro" GET = Some v -> v <> "" ->
    icontains (bairro i) v = true;
  sf_quartos : forall v n, get "quartos" GET = Some v -> v <> "" ->
    py_int v = Some n -> n <= quartos i;
  sf_banheiros : forall v n, get "banheiros" GET = Some v -> v <> "" ->
    py_int v = Some n -> n <= banheiros i;
  sf_vagas : forall v n, get "vagas" GET = Some v -> v <> "" ->
    py_int v = Some n -> n <= vagas_garagem i;
  sf_area_min : forall v x, get "area_min" GET = Some v -> v <> "" ->
    py_float v = Some x -> num_leb x (area_util i) = true;
  sf_preco_min : forall v x, get "preco_min" GET = Some v -> v <> "" ->
    py_float v = Some x ->
    exists e, In e (precos i) /\ num_leb x (valor e) = true;
  sf_preco_max : forall v x, get "preco_max" GET = Some v -> v <> "" ->
    py_float v = Some x ->
    exists e, In e (precos i) /\ num_leb (valor e) x = true;
  sf_mobilia : forall v, get "mobilia" GET = Some v -> v <> "" -> mobilia i = v;
  sf_pet_friendly : get "pet_friendly" GET = Some "true" -> pet_friendly i = true;
  sf_financiamento :
    get "financiamento" GET = Some "true" -> aceita_financiamento i = true;
  sf_com_fotos : get "com_fotos" GET = Some "true" -> fotos i <> [];
  sf_infraestrutura : forall v n, In v (getlist "infraestrutura" GET) ->
    py_int v = Some n -> In n (infraestrutura i)
}.

(** The relevance order: creation time descending, then update time
    descending. *)
Definition relevancia_order (a b : Imovel) : Prop :=
  criado_em b < criado_em a
  \/ (criado_em b = criado_em a /\ atualizado_em b <= atualizado_em a).

(** What a search returns: the page, its number and the total count. *)
Definition search_result (db : Store) (GET : QueryDict) : list Imovel * nat * nat :=
  let c := lista_imoveis db GET in
  (page_obj c, page_number c, total_imoveis c).

(** The primary key is one: no two rows of the table share it. *)
Definition pk_unique (db : Store) : Prop := NoDup (map pk db).
End Facets.

(** ** Example stores and requests *)

Module Exemplos.
Import Ref.

(** Two listings, the first one priced twice. *)
Definition casa_a : Imovel :=
  anuncio 1 ATIVO 100 50 [preco 1 "venda" 10; preco 2 "aluguel" 12] [].
Definition casa_b : Imovel :=
  anuncio 2 ATIVO 90 80 [preco 3 "venda" 15] [].
Definition db_duas : Store := [casa_a; casa_b].
Definition GET_preco_menor : QueryDict := [("ordenacao", "preco_menor")].

(** A listing priced 1000 for sale and 100 for rent, and a price range
    that holds neither. *)
Definition casa_c : Imovel :=
  anuncio 3 ATIVO 80 60 [preco 4 "venda" 1000; preco 5 "aluguel" 100] [].
Definition GET_faixa : QueryDict := [("preco_min", "200"); ("preco_max", "500")].

(** A listing with the amenities 1 and 2. *)
Definition casa_d : Imovel := anuncio 4 ATIVO 70 90 [] [1; 2].
Definition GET_infra (ids : list string) : QueryDict :=
  map (fun s => ("infraestrutura", s)) ids.

(** A sold listing. *)
Definition casa_vendida : Imovel := anuncio 5 VENDIDO 60 75 [preco 6 "venda" 300] [].

(** A pet friendly listing and one that is not. *)
Definition casa_pet : Imovel :=
  {| pk := 6; titulo := "Casa com quintal"; descricao := ""; tipo := "casa";
     status := ATIVO; endereco := "Rua B"; bairro := "Jardim";
     cidade := "Springfield"; area_util := QArith_base.inject_Z 120;
     quartos := 3; banheiros := 2; vagas_garagem := 2;
     mobilia := "mobiliado"; pet_friendly := true;
     aceita_financiamento := true;
     criado_em := 50; atualizado_em := 55;
     precos := [preco 7 "venda" 400]; fotos := []; infraestrutura := [1] |}.
Definition db_mista : Store := [casa_a; casa_c; casa_d; casa_vendida; casa_pet].

(** A listing with three prices inside the range 5 to 50, next to
    [casa_b], priced 15; the request sorts by price. *)
Definition casa_tres : Imovel :=
  anuncio 7 ATIVO 95 70
    [preco 8 "venda" 10; preco 9 "aluguel" 12; preco 10 "temporada" 14] [].
Definition db_tres : Store := [casa_tres; casa_b].
Definition GET_faixa_ordenada : QueryDict :=
  [("preco_min", "5"); ("preco_max", "50"); ("ordenacao", "preco_menor")].
Definition GET_so_faixa : QueryDict := [("preco_min", "5"); ("preco_max", "50")].

Definition GET_bogus : QueryDict := [("ordenacao", "bogus")].
Definition GET_abc : QueryDict := [("quartos", "abc")].
Definition GET_True : QueryDict := [("pet_friendly", "True")].
Definition GET_page2 : QueryDict := [("page", "2")].

(** Three active listings in Springfield with areas 50, 80 and 120. *)
Definition db_springfield : Store :=
  [anuncio 21 ATIVO 10 50 [] []; anuncio 22 ATIVO 20 80 [] [];
   anuncio 23 ATIVO 30 120 [] []].
Definition GET_springfield : QueryDict :=
  [("cidade", "springfield"); ("area_min", "75")].

(** Thirteen active listings. *)
Definition db_treze : Store :=
  map (fun k => anuncio k ATIVO k 50 [] []) [1; 2; 3; 4; 5; 6; 7; 8; 9; 10; 11; 12; 13].
End Exemplos.

(** ** The other views and the admin columns *)

(** Python slicing [s[:n]] of a [str]. *)
Fixpoint py_take (n : nat) (s : string) : string :=
  match n, s with
  | S m, String c t => String c (py_take m t)
  | _, _ => EmptyString
  end.

Section OtherViews.
Context {B : Backend}.

(** [paginator.page(number)] of [lista_imoveis]: the listings of the page
    with the given number. *)
Definition page_items (db : Store) (GET : QueryDict) (number : nat) : list Imovel :=
  let '(bottom, top) := page_bounds (count (filtrar db GET)) number in
  map fst (slice bottom top (resultado db GET)).

(** [order_by('-criado_em')] on a queryset of [Imovel] rows. *)
Definition mais_novo_primeiro (a b : Imovel) : bool := criado_em b <=? criado_em a.

(** [home]: the featured listings,
    [filter(status=ATIVO).order_by('-criado_em')[:6]]. *)
Definition imoveis_destaque (db : Store) : list Imovel :=
  firstn 6 (sort_by mais_novo_primeiro
              (filter (fun i => status_eqb (status i) ATIVO) db)).

(** [home] and [lista_imoveis]: the cities of the filter form,
    [filter(status=ATIVO).values_list('cidade', flat=True).distinct()
     .order_by('cidade')]. [collate_leb] is the order of the database
    collation on the column; DISTINCT compares the names as they are
    written. *)
Definition cidades (collate_leb : string -> string -> bool) (db : Store) : list string :=
  sort_by collate_leb
    (distinct_by String.eqb
       (map (fun i => cidade i) (filter (fun i => status_eqb (status i) ATIVO) db))).

(** The template context of [home] (the choices of [Imovel.TipoImovel]
    are a constant of the model and are left out). *)
Record HomeContext : Type := {
  h_imoveis_destaque : list Imovel;
  h_cidades : list string
}.

Definition home (collate_leb : string -> string -> bool) (db : Store) : HomeContext :=
  {| h_imoveis_destaque := imoveis_destaque db;
     h_cidades := cidades collate_leb db |}.

(** [ImovelAdmin.titulo_resumido]:
    [obj.titulo[:50] + '...' if len(obj.titulo) > 50 else obj.titulo] *)
Definition titulo_resumido (obj : Imovel) : string :=
  if (50 <? String.length (titulo obj))%nat
  then py_take 50 (titulo obj) ++ "..."
  else titulo obj.

(** [PrecoPorFinalidadeAdmin.valor_formatado]; [fmt] is [str] on the
    decimal column, as the f-string applies it. *)
Definition valor_formatado (fmt : Num -> string) (obj : PrecoPorFinalidade) : string :=
  if String.eqb (finalidade obj) "temporada"
  then "R$ " ++ fmt (valor obj) ++ "/dia"
  else "R$ " ++ fmt (valor obj).

(** [ImovelAdmin.preco_resumo]: at most two prices, joined by [' | '],
    and ['...'] when there are more; the loop body formats a price as
    [valor_formatado] does. *)
Definition preco_resumo (fmt : Num -> string) (obj : Imovel) : string :=
  match precos obj with
  | [] => "-"
  | _ :: _ =>
      let resumo := map (valor_formatado fmt) (firstn 2 (precos obj)) in
      let result := String.concat " | " resumo in
      if (2 <? List.length (precos obj))%nat then result ++ "..." else result
  end.
End OtherViews.

(** The keys of the query string [lista_imoveis] reads. *)
Definition chaves_lidas : list string :=
  ["busca"; "finalidade"; "tipo"; "cidade"; "bairro"; "quartos"; "banheiros";
   "vagas"; "area_min"; "preco_min"; "preco_max"; "mobilia"; "pet_friendly";
   "financiamento"; "com_fotos"; "infraestrutura"; "ordenacao"; "page"].

(** Requests and titles for the examples of the other views. *)
Module MaisExemplos.
Import Ref Exemplos.

Definition GET_tipo_vazio : QueryDict := [("tipo", "")].
Definition GET_busca_branca : QueryDict := [("busca", "   ")].
Definition GET_mais_recentes : QueryDict := [("ordenacao", "mais_recentes")].
Definition GET_maior_area : QueryDict := [("ordenacao", "maior_area")].
Definition GET_preco_maior : QueryDict := [("ordenacao", "preco_maior")].
Definition GET_cidade_ausente : QueryDict := [("cidade", "Shelbyville"); ("page", "3")].
Definition GET_venda_barata : QueryDict := [("finalidade", "venda"); ("preco_max", "500")].
Definition GET_utm : QueryDict := [("utm_source", "mail"); ("tipo", "casa")].

(** A listing whose title has 60 characters. *)
Definition casa_titulo_longo : Imovel :=
  {| pk := 8;
     titulo := "Apartamento amplo com tres quartos e varanda no centro novo!";
     descricao := ""; tipo := "apartamento";
     status := ATIVO; endereco := "Rua C"; bairro := "Centro";
     cidade := "Shelbyville"; area_util := QArith_base.inject_Z 95;
     quartos := 3; banheiros := 2; vagas_garagem := 1;
     mobilia := "mobiliado"; pet_friendly := false;
     aceita_financiamento := true;
     criado_em := 40; atualizado_em := 41;
     precos := []; fotos := []; infraestrutura := [] |}.

(** The detail page of [casa_a] in [db_mista]. *)
Definition similares_casa_a : DetalheContext :=
  {| d_imovel := casa_a; imoveis_similares := [casa_c; casa_d; casa_pet] |}.

(** The order of a binary collation: byte-wise, a prefix first. *)
Fixpoint binary_leb (a b : string) : bool :=
  match a, b with
  | EmptyString, _ => true
  | String _ _, EmptyString => false
  | String x s, String y t =>
      (nat_of_ascii x <? nat_of_ascii y)%nat
      || (nat_of_ascii x =? nat_of_ascii y)%nat && binary_leb s t
  end.
End MaisExemplos.

(** * Properties *)

(** ** Lists: sorting, DISTINCT, slices *)

Section ListFacts.
Context {A : Type}.
Implicit Types (l : list A) (leb eqb : A -> A -> bool).

Lemma insert_by_perm leb x l : Permutation (x :: l) (insert_by leb x l).
Proof.
  induction l as [|y t IH]; simpl; [reflexivity|].
  destruct (leb x y); [reflexivity|].
  rewrite perm_swap. now apply perm_skip.
Qed.

Lemma sort_by_perm leb l : Permutation l (sort_by leb l).
Proof.
  induction l as [|x t IH]; simpl; [constructor|].
  rewrite <- insert_by_perm. now apply perm_skip.
Qed.

Lemma In_sort_by leb l x : In x (sort_by leb l) <-> In x l.
Proof.
  split; apply Permutation_in; [symmetry|]; apply sort_by_perm.
Qed.

Lemma length_sort_by leb l : List.length (sort_by leb l) = List.length l.
Proof. symmetry. apply Permutation_length, sort_by_perm. Qed.

Section Sorted.
Variable leb : A -> A -> bool.
Hypothesis leb_total : forall a b, leb a b = true \/ leb b a = true.
Hypothesis leb_trans : forall a b c, leb a b = true -> leb b c = true -> leb a c = true.

Let R (a b : A) : Prop := leb a b = true.

Lemma insert_by_sorted x l :
  StronglySorted R l -> StronglySorted R (insert_by leb x l).
Proof.
  induction 1 as [|y t Hs IH Hall]; simpl.
  - repeat constructor.
  - destruct (leb x y) eqn:E.
    + constructor; [now constructor|].
      constructor; [exact E|].
      eapply Forall_impl; [|exact Hall].
      intros z Hz. now apply (leb_trans x y z).
    + constructor; [exact IH|].
      rewrite Forall_forall. intros z Hz.
      apply (Permutation_in _ (Permutation_sym (insert_by_perm leb x t))) in Hz.
      destruct Hz as [<-|Hz].
      * destruct (leb_total x y) as [H|H]; [congruence|exact H].
      * rewrite Forall_forall in Hall. now apply Hall.
Qed.

Lemma sort_by_sorted l : StronglySorted R (sort_by leb l).
Proof.
  induction l as [|x t IH]; simpl; [constructor|].
  now apply insert_by_sorted.
Qed.
End Sorted.

Lemma StronglySorted_filter (R : A -> A -> Prop) (f : A -> bool) l :
  StronglySorted R l -> StronglySorted R (filter f l).
Proof.
  induction 1 as [|x t Hs IH Hall]; simpl; [constructor|].
  destruct (f x); [|exact IH].
  constructor; [exact IH|].
  rewrite Forall_forall in *. intros y Hy.
  apply filter_In in Hy. now apply Hall.
Qed.

Lemma StronglySorted_skipn (R : A -> A -> Prop) n l :
  StronglySorted R l -> StronglySorted R (skipn n l).
Proof.
  revert l. induction n as [|n IH]; intros l H; [exact H|].
  destruct l as [|x t]; [constructor|].
  simpl. apply IH. now inversion H.
Qed.

Lemma StronglySorted_firstn (R : A -> A -> Prop) n l :
  StronglySorted R l -> StronglySorted R (firstn n l).
Proof.
  revert l. induction n as [|n IH]; intros l H; [constructor|].
  destruct l as [|x t]; [constructor|].
  simpl. inversion H as [|? ? Hs Hall]; subst.
  constructor; [now apply IH|].
  rewrite Forall_forall in *. intros y Hy.
  apply Hall. rewrite <- (firstn_skipn n t). apply in_or_app. now left.
Qed.

Lemma StronglySorted_slice (R : A -> A -> Prop) bottom top l :
  StronglySorted R l -> StronglySorted R (slice bottom top l).
Proof.
  intros H. unfold slice. now apply StronglySorted_firstn, StronglySorted_skipn.
Qed.

Lemma StronglySorted_distinct_by (R : A -> A -> Prop) eqb l :
  StronglySorted R l -> StronglySorted R (distinct_by eqb l).
Proof.
  induction 1 as [|x t Hs IH Hall]; simpl; [constructor|].
  assert (Hsub : forall y, In y (distinct_by eqb t) -> In y t).
  { clear. induction t as [|z t IHt]; simpl; [tauto|].
    intros y [->|Hy]; [now left|].
    apply filter_In in Hy. right. now apply IHt. }
  constructor.
  - now apply StronglySorted_filter.
  - rewrite Forall_forall in *. intros y Hy.
    apply filter_In in Hy. apply Hall, Hsub, Hy.
Qed.

Lemma In_distinct_by eqb l x : In x (distinct_by eqb l) -> In x l.
Proof.
  induction l as [|z t IH]; simpl; [tauto|].
  intros [->|Hx]; [now left|].
  apply filter_In in Hx. right. now apply IH.
Qed.

Lemma In_firstn n l x : In x (firstn n l) -> In x l.
Proof.
  intros H. rewrite <- (firstn_skipn n l). apply in_or_app. now left.
Qed.

Lemma In_skipn n l x : In x (skipn n l) -> In x l.
Proof.
  intros H. rewrite <- (firstn_skipn n l). apply in_or_app. now right.
Qed.

Lemma In_slice bottom top l x : In x (slice bottom top l) -> In x l.
Proof.
  unfold slice. intros H. now apply In_firstn, In_skipn in H.
Qed.

Lemma length_slice_le bottom top l : (List.length (slice bottom top l) <= top - bottom)%nat.
Proof. unfold slice. apply firstn_le_length. Qed.

Lemma length_slice bottom top l :
  (top <= List.length l)%nat ->
  List.length (slice bottom top l) = (top - bottom)%nat.
Proof.
  intros H. unfold slice. rewrite length_firstn, length_skipn. lia.
Qed.

(** DISTINCT on a key: [eqb] compares a key of the rows. *)
Section Keyed.
Context {K : Type}.
Variable key : A -> K.

Lemma distinct_by_covers eqb l x :
  (forall a b, eqb a b = true -> key a = key b) ->
  In x l -> In (key x) (map key (distinct_by eqb l)).
Proof.
  intros Hk. induction l as [|z t IH]; simpl; [tauto|].
  intros [->|Hx]; [now left|].
  specialize (IH Hx). apply in_map_iff in IH. destruct IH as (y & Hy & Hin).
  destruct (eqb z y) eqn:E.
  - left. rewrite <- Hy. now apply Hk.
  - right. apply in_map_iff. exists y. split; [exact Hy|].
    apply filter_In. now rewrite E.
Qed.

Lemma distinct_by_NoDup eqb l :
  (forall a b, In a l -> In b l -> key a = key b -> eqb a b = true) ->
  NoDup (map key (distinct_by eqb l)).
Proof.
  intros Hk. induction l as [|z t IH]; simpl; [constructor|].
  assert (IH' : NoDup (map key (distinct_by eqb t))).
  { apply IH. intros a b Ha Hb. apply Hk; now right. }
  clear IH. rename IH' into IH.
  constructor.
  - intros Hin. apply in_map_iff in Hin. destruct Hin as (y & Hy & Hin).
    apply filter_In in Hin. destruct Hin as [Hin Hne].
    apply In_distinct_by in Hin.
    rewrite (Hk z y) in Hne; [discriminate|now left|now right|now symmetry].
  - clear - IH. induction (distinct_by eqb t) as [|y u IHu]; simpl; [constructor|].
    inversion IH; subst.
    destruct (negb (eqb z y)); simpl; [|now apply IHu].
    constructor; [|now apply IHu].
    intros Hin. apply in_map_iff in Hin. destruct Hin as (w & Hw & Hin).
    apply filter_In in Hin. destruct Hin as [Hin _].
    match goal with H : ~ In _ _ |- _ => apply H end.
    apply in_map_iff. now exists w.
Qed.
End Keyed.
End ListFacts.

(** ** request.GET: reading a key after another one changed *)

Section QueryDictFacts.
Implicit Types (GET : QueryDict) (k key v : string).

Lemma getlist_app key GET1 GET2 :
  getlist key (GET1 ++ GET2) = getlist key GET1 ++ getlist key GET2.
Proof. unfold getlist. now rewrite filter_app, map_app. Qed.

Lemma getlist_omit_eq k GET : getlist k (omit k GET) = [].
Proof.
  unfold getlist, omit. induction GET as [|[k0 v0] t IH]; simpl; [reflexivity|].
  destruct (String.eqb k0 k) eqn:E; simpl; [exact IH|].
  now rewrite E.
Qed.

Lemma getlist_omit_ne k key GET :
  String.eqb key k = false -> getlist key (omit k GET) = getlist key GET.
Proof.
  intros Hne. unfold getlist, omit.
  induction GET as [|[k0 v0] t IH]; simpl; [reflexivity|].
  destruct (String.eqb k0 k) eqn:E; simpl.
  - apply String.eqb_eq in E. subst k0.
    rewrite String.eqb_sym, Hne. exact IH.
  - destruct (String.eqb k0 key); simpl; now rewrite IH.
Qed.

Lemma getlist_omit_value_ne k v key GET :
  String.eqb key k = false -> getlist key (omit_value k v GET) = getlist key GET.
Proof.
  intros Hne. unfold getlist, omit_value.
  induction GET as [|[k0 v0] t IH]; simpl; [reflexivity|].
  destruct (String.eqb k0 k) eqn:E; simpl.
  - apply String.eqb_eq in E. subst k0.
    rewrite (String.eqb_sym k key), Hne.
    destruct (String.eqb v0 v); simpl; [exact IH|].
    now rewrite (String.eqb_sym k key), Hne.
  - destruct (String.eqb k0 key); simpl; now rewrite IH.
Qed.

Lemma getlist_omit_value_eq k v GET :
  getlist k (omit_value k v GET)
  = filter (fun s => negb (String.eqb s v)) (getlist k GET).
Proof.
  unfold getlist, omit_value.
  induction GET as [|[k0 v0] t IH]; simpl; [reflexivity|].
  destruct (String.eqb k0 k) eqn:E; simpl.
  - destruct (String.eqb v0 v); simpl; [exact IH|].
    rewrite E. simpl. now rewrite IH.
  - rewrite E. exact IH.
Qed.

Lemma getlist_set_param_eq k v GET : getlist k (set_param k v GET) = [v].
Proof.
  unfold set_param. rewrite getlist_app, getlist_omit_eq.
  unfold getlist. simpl. now rewrite String.eqb_refl.
Qed.

Lemma getlist_set_param_ne k v key GET :
  String.eqb key k = false -> getlist key (set_param k v GET) = getlist key GET.
Proof.
  intros Hne. unfold set_param. rewrite getlist_app, getlist_omit_ne by exact Hne.
  unfold getlist at 2. simpl. rewrite String.eqb_sym, Hne. apply app_nil_r.
Qed.

Lemma get_omit_eq k GET : get k (omit k GET) = None.
Proof. unfold get. now rewrite getlist_omit_eq. Qed.

Lemma get_omit_ne k key GET :
  String.eqb key k = false -> get key (omit k GET) = get key GET.
Proof. intros H. unfold get. now rewrite getlist_omit_ne. Qed.

Lemma get_omit_value_ne k v key GET :
  String.eqb key k = false -> get key (omit_value k v GET) = get key GET.
Proof. intros H. unfold get. now rewrite getlist_omit_value_ne. Qed.

Lemma get_set_param_eq k v GET : get k (set_param k v GET) = Some v.
Proof. unfold get. now rewrite getlist_set_param_eq. Qed.

Lemma get_set_param_ne k v key GET :
  String.eqb key k = false -> get key (set_param k v GET) = get key GET.
Proof. intros H. unfold get. now rewrite getlist_set_param_ne. Qed.

Lemma get_default_omit_ne k key d GET :
  String.eqb key k = false -> get_default key d (omit k GET) = get_default key d GET.
Proof. intros H. unfold get_default. now rewrite get_omit_ne. Qed.

Lemma get_default_omit_value_ne k v key d GET :
  String.eqb key k = false ->
  get_default key d (omit_value k v GET) = get_default key d GET.
Proof. intros H. unfold get_default. now rewrite get_omit_value_ne. Qed.

Lemma get_default_set_param_ne k v key d GET :
  String.eqb key k = false ->
  get_default key d (set_param k v GET) = get_default key d GET.
Proof. intros H. unfold get_default. now rewrite get_set_param_ne. Qed.

Lemma nonempty_true s : nonempty s = true <-> s <> "".
Proof.
  unfold nonempty. rewrite negb_true_iff. split.
  - intros H ->. now rewrite String.eqb_refl in H.
  - intros H. now apply String.eqb_neq.
Qed.
End QueryDictFacts.

(** Rewrites the reads of [key] through a change of another key. *)
Ltac other_key key :=
  repeat first
    [ rewrite (get_omit_ne _ key) by reflexivity
    | rewrite (get_default_omit_ne _ key) by reflexivity
    | rewrite (getlist_omit_ne _ key) by reflexivity
    | rewrite (get_omit_value_ne _ _ key) by reflexivity
    | rewrite (get_default_omit_value_ne _ _ key) by reflexivity
    | rewrite (getlist_omit_value_ne _ _ key) by reflexivity
    | rewrite (get_set_param_ne _ _ key) by reflexivity
    | rewrite (get_default_set_param_ne _ _ key) by reflexivity
    | rewrite (getlist_set_param_ne _ _ key) by reflexivity ].

(** The same for every key [lista_imoveis] reads. *)
Ltac other_keys :=
  other_key "busca"; other_key "finalidade"; other_key "tipo";
  other_key "cidade"; other_key "bairro"; other_key "quartos";
  other_key "banheiros"; other_key "vagas"; other_key "area_min";
  other_key "preco_min"; other_key "preco_max"; other_key "mobilia";
  other_key "pet_friendly"; other_key "financiamento"; other_key "com_fotos";
  other_key "infraestrutura"; other_key "ordenacao"; other_key "page".

(** ** Querysets: which listings a filter keeps *)

Section QueryFacts.
Context {B : Backend}.
Implicit Types (qs : QuerySet) (i : Imovel) (db : Store) (GET : QueryDict).

(** A queryset transformer that keeps exactly the listings passing [P],
    whatever it does to the number of joined rows. *)
Definition selects (t : QuerySet -> QuerySet) (P : Imovel -> bool) : Prop :=
  forall qs i, has i (t qs) <-> has i qs /\ P i = true.

Lemma has_objects db i : has i (objects db) <-> In i db.
Proof.
  unfold has, objects. rewrite map_map. simpl. now rewrite map_id.
Qed.

Lemma selects_where p : selects (filter_where p) p.
Proof.
  intros qs i. unfold has, filter_where. rewrite !in_map_iff. split.
  - intros (r & <- & Hr). apply filter_In in Hr. destruct Hr as [Hr Hp].
    split; [now exists r | exact Hp].
  - intros [(r & <- & Hr) Hp]. exists r. split; [reflexivity|].
    apply filter_In. now split.
Qed.

Lemma selects_precos p : selects (filter_precos p) (has_preco p).
Proof.
  intros qs i. unfold has, filter_precos, has_preco.
  rewrite !in_map_iff, existsb_exists. split.
  - intros (r' & <- & Hr'). apply in_flat_map in Hr'.
    destruct Hr' as (r & Hr & Hin). apply in_map_iff in Hin.
    destruct Hin as (e & <- & He). apply filter_In in He. simpl.
    split; [now exists r | now exists e].
  - intros [(r & <- & Hr) (e & He & Hp)].
    exists {| imovel := imovel r; aliases := e :: aliases r |}.
    split; [reflexivity|]. apply in_flat_map. exists r. split; [exact Hr|].
    apply in_map_iff. exists e. split; [reflexivity|]. apply filter_In. now split.
Qed.

Lemma selects_fotos : selects filter_fotos has_fotos.
Proof.
  intros qs i. unfold has, filter_fotos, has_fotos. rewrite !in_map_iff. split.
  - intros (r' & <- & Hr'). apply in_flat_map in Hr'.
    destruct Hr' as (r & Hr & Hin). apply in_map_iff in Hin.
    destruct Hin as (f & <- & Hf).
    split; [now exists r|]. now destruct (fotos (imovel r)).
  - intros [(r & <- & Hr) Hp]. exists r. split; [reflexivity|].
    apply in_flat_map. exists r. split; [exact Hr|].
    destruct (fotos (imovel r)) as [|f fs]; [discriminate|]. now left.
Qed.

Lemma selects_infraestrutura n : selects (filter_infraestrutura n) (has_infra n).
Proof.
  intros qs i. unfold has, filter_infraestrutura, has_infra.
  rewrite !in_map_iff, existsb_exists. split.
  - intros (r' & <- & Hr'). apply in_flat_map in Hr'.
    destruct Hr' as (r & Hr & Hin). apply in_map_iff in Hin.
    destruct Hin as (m & <- & Hm). apply filter_In in Hm.
    split; [now exists r | now exists m].
  - intros [(r & <- & Hr) (m & Hm & Hp)]. exists r. split; [reflexivity|].
    apply in_flat_map. exists r. split; [exact Hr|].
    apply in_map_iff. exists m. split; [reflexivity|]. apply filter_In. now split.
Qed.

Lemma selects_id : selects (fun qs => qs) (fun _ => true).
Proof. intros qs i. tauto. Qed.

Lemma has_where p qs i :
  has i (filter_where p qs) <-> has i qs /\ p i = true.
Proof. apply selects_where. Qed.

Lemma has_if_given value f p qs i :
  (forall s, selects (f s) (p s)) ->
  has i (if_given value f qs) <-> has i qs /\ facet value p i = true.
Proof.
  intros Hf. unfold if_given, facet.
  destruct value as [s|]; [destruct (nonempty s)|]; try apply Hf; tauto.
Qed.

Lemma selects_try_int f p s :
  (forall n, selects (f n) (p n)) -> selects (try_int f s) (parsed py_int p s).
Proof.
  intros Hf qs i. unfold try_int, parsed.
  destruct (py_int s); [apply Hf | tauto].
Qed.

Lemma selects_try_float f p s :
  (forall x, selects (f x) (p x)) -> selects (try_float f s) (parsed py_float p s).
Proof.
  intros Hf qs i. unfold try_float, parsed.
  destruct (py_float s); [apply Hf | tauto].
Qed.

Lemma has_if_true value f p qs i :
  selects f p ->
  has i (if_true value f qs) <-> has i qs /\ flag value p i = true.
Proof.
  intros Hf. unfold if_true, flag.
  destruct value as [s|]; [destruct (String.eqb s "true")|]; try apply Hf; tauto.
Qed.

Lemma has_fold_left (f : string -> QuerySet -> QuerySet)
    (p : string -> Imovel -> bool) (ids : list string) qs i :
  (forall s, selects (f s) (p s)) ->
  has i (fold_left (fun qs s => f s qs) ids qs)
  <-> has i qs /\ forallb (fun s => p s i) ids = true.
Proof.
  intros Hf. revert qs. induction ids as [|s ids IH]; intros qs; simpl; [tauto|].
  rewrite (IH (f s qs)), (Hf s qs i), andb_true_iff. tauto.
Qed.

(** The joins of [filtrar] keep a listing exactly when it is in the
    store and passes every applied facet. *)
Lemma filtrar_has db GET i :
  has i (filtrar db GET) <-> In i db /\ qualifies GET i = true.
Proof.
  unfold filtrar, qualifies.
  rewrite (has_fold_left (try_int filter_infraestrutura) (parsed py_int has_infra))
    by (intros s; apply selects_try_int, selects_infraestrutura).
  rewrite (has_if_true _ _ has_fotos) by apply selects_fotos.
  rewrite (has_if_true _ _ (fun i => aceita_financiamento i)) by apply selects_where.
  rewrite (has_if_true _ _ (fun i => pet_friendly i)) by apply selects_where.
  rewrite (has_if_given _ _ (fun v i => String.eqb (mobilia i) v))
    by (intros s; apply selects_where).
  rewrite (has_if_given _ _
             (parsed py_float (fun x => has_preco (fun e => num_leb (valor e) x))))
    by (intros s; apply selects_try_float; intros x; apply selects_precos).
  rewrite (has_if_given _ _
             (parsed py_float (fun x => has_preco (fun e => num_leb x (valor e)))))
    by (intros s; apply selects_try_float; intros x; apply selects_precos).
  rewrite (has_if_given _ _
             (parsed py_float (fun x i => num_leb x (area_util i))))
    by (intros s; apply selects_try_float; intros x; apply selects_where).
  rewrite (has_if_given _ _ (parsed py_int (fun n i => n <=? vagas_garagem i)))
    by (intros s; apply selects_try_int; intros x; apply selects_where).
  rewrite (has_if_given _ _ (parsed py_int (fun n i => n <=? banheiros i)))
    by (intros s; apply selects_try_int; intros x; apply selects_where).
  rewrite (has_if_given _ _ (parsed py_int (fun n i => n <=? quartos i)))
    by (intros s; apply selects_try_int; intros x; apply selects_where).
  rewrite (has_if_given _ _ (fun v i => icontains (bairro i) v))
    by (intros s; apply selects_where).
  rewrite (has_if_given _ _ (fun v i => iexact (cidade i) v))
    by (intros s; apply selects_where).
  rewrite (has_if_given _ _ (fun v i => String.eqb (tipo i) v))
    by (intros s; apply selects_where).
  rewrite (has_if_given _ _
             (fun v => has_preco (fun e => String.eqb (finalidade e) v)))
    by (intros s; apply selects_precos).
  cbv zeta.
  destruct (nonempty (strip (get_default "busca" "" GET))).
  - rewrite !has_where, has_objects, !andb_true_iff. tauto.
  - rewrite has_where, has_objects, !andb_true_iff. tauto.
Qed.
End QueryFacts.

(** ** From the filtered queryset to the page *)

Section ResultFacts.
Context {B : Backend}.
Implicit Types (qs : QuerySet) (i : Imovel) (db : Store) (GET : QueryDict).

Lemma qualifies_satisfies GET i :
  qualifies GET i = true -> satisfies_facets GET i.
Proof.
  unfold qualifies. rewrite !andb_true_iff.
  intros [[[[[[[[[[[[[[[[Hst Hbu] Hfi] Hti] Hci] Hba] Hqu] Hbn] Hva] Har] Hmi] Hma]
                    Hmo] Hpe] Hfn] Hfo] Hin].
  assert (Hfacet : forall value p v, facet value p i = true ->
            value = Some v -> v <> "" -> p v i = true).
  { intros value p v H -> Hv. unfold facet in H.
    apply nonempty_true in Hv. now rewrite Hv in H. }
  assert (Hflag : forall value p, flag value p i = true ->
            value = Some "true" -> p i = true).
  { intros value p H ->. exact H. }
  constructor.
  - now destruct (status i).
  - cbv zeta in *. intros Hne. apply nonempty_true in Hne. now rewrite Hne in Hbu.
  - intros v Hv Hne. specialize (Hfacet _ _ v Hfi Hv Hne).
    apply existsb_exists in Hfacet. destruct Hfacet as (e & He & Hp).
    exists e. split; [exact He | now apply String.eqb_eq].
  - intros v Hv Hne. now apply String.eqb_eq, (Hfacet _ _ v Hti).
  - intros v Hv Hne. now apply (Hfacet _ _ v Hci).
  - intros v Hv Hne. now apply (Hfacet _ _ v Hba).
  - intros v n Hv Hne Hp. specialize (Hfacet _ _ v Hqu Hv Hne).
    unfold parsed in Hfacet. rewrite Hp in Hfacet. now apply Z.leb_le.
  - intros v n Hv Hne Hp. specialize (Hfacet _ _ v Hbn Hv Hne).
    unfold parsed in Hfacet. rewrite Hp in Hfacet. now apply Z.leb_le.
  - intros v n Hv Hne Hp. specialize (Hfacet _ _ v Hva Hv Hne).
    unfold parsed in Hfacet. rewrite Hp in Hfacet. now apply Z.leb_le.
  - intros v x Hv Hne Hp. specialize (Hfacet _ _ v Har Hv Hne).
    unfold parsed in Hfacet. now rewrite Hp in Hfacet.
  - intros v x Hv Hne Hp. specialize (Hfacet _ _ v Hmi Hv Hne).
    unfold parsed in Hfacet. rewrite Hp in Hfacet.
    apply existsb_exists in Hfacet. destruct Hfacet as (e & He & Hle). now exists e.
  - intros v x Hv Hne Hp. specialize (Hfacet _ _ v Hma Hv Hne).
    unfold parsed in Hfacet. rewrite Hp in Hfacet.
    apply existsb_exists in Hfacet. destruct Hfacet as (e & He & Hle). now exists e.
  - intros v Hv Hne. now apply String.eqb_eq, (Hfacet _ _ v Hmo).
  - intros Hv. now apply (Hflag _ _ Hpe).
  - intros Hv. now apply (Hflag _ _ Hfn).
  - intros Hv. apply (Hflag _ _ Hfo) in Hv. unfold has_fotos in Hv.
    now destruct (fotos i).
  - intros v n Hv Hp. rewrite forallb_forall in Hin. specialize (Hin v Hv).
    unfold parsed in Hin. rewrite Hp in Hin. unfold has_infra in Hin.
    apply existsb_exists in Hin. destruct Hin as (m & Hm & Heq).
    apply Z.eqb_eq in Heq. now subst m.
Qed.

Lemma In_select_imovel qs i : In i (map fst (select_imovel qs)) <-> has i qs.
Proof. unfold select_imovel, has. now rewrite map_map. Qed.

Lemma In_select_precos_valor qs i :
  In i (map fst (select_precos_valor qs)) <-> has i qs.
Proof.
  unfold select_precos_valor, has. rewrite !in_map_iff. split.
  - intros (x & <- & Hx). apply in_flat_map in Hx. destruct Hx as (r & Hr & Hx).
    exists r. split; [|exact Hr].
    destruct (aliases r) as [|e ?].
    + destruct (precos (imovel r)) as [|e0 ps] eqn:E.
      * destruct Hx as [<-|[]]. reflexivity.
      * apply in_map_iff in Hx. now destruct Hx as (e & <- & _).
    + destruct Hx as [<-|[]]. reflexivity.
  - intros (r & <- & Hr).
    destruct (aliases r) as [|e al] eqn:Ea.
    + destruct (precos (imovel r)) as [|e0 ps] eqn:E.
      * exists (imovel r, None). split; [reflexivity|].
        apply in_flat_map. exists r. split; [exact Hr|]. rewrite Ea, E. now left.
      * exists (imovel r, Some (valor e0)). split; [reflexivity|].
        apply in_flat_map. exists r. split; [exact Hr|]. rewrite Ea, E. now left.
    + exists (imovel r, Some (valor e)). split; [reflexivity|].
      apply in_flat_map. exists r. split; [exact Hr|]. rewrite Ea. now left.
Qed.

Lemma In_map_sort_by {X Y : Type} (f : X -> Y) leb (l : list X) y :
  In y (map f (sort_by leb l)) <-> In y (map f l).
Proof.
  rewrite !in_map_iff. split; intros (x & Hx & Hin); exists x;
    (split; [exact Hx|]); now apply (In_sort_by leb l x).
Qed.

(** Ordering neither adds nor loses a listing. *)
Lemma ordenar_has ordenacao qs i :
  In i (map fst (fst (ordenar ordenacao qs))) <-> has i qs.
Proof.
  unfold ordenar.
  repeat match goal with
         | |- context [if ?c then _ else _] => destruct c
         end; simpl; rewrite In_map_sort_by;
    first [apply In_select_precos_valor | apply In_select_imovel].
Qed.

Lemma selected_eqb_pk (a b : Selected) :
  selected_eqb a b = true -> pk (fst a) = pk (fst b).
Proof.
  unfold selected_eqb, pk_eqb. intros H. apply andb_true_iff in H.
  now apply Z.eqb_eq.
Qed.

Lemma pk_eqb_iff (a b : Imovel) : pk_eqb a b = true <-> pk a = pk b.
Proof. apply Z.eqb_eq. Qed.

Lemma resultado_sub GET db i :
  In i (map fst (resultado db GET)) -> has i (filtrar db GET).
Proof.
  unfold resultado. intros H. apply in_map_iff in H. destruct H as (x & <- & Hx).
  apply In_distinct_by in Hx.
  apply (ordenar_has (get_default "ordenacao" "relevancia" GET)).
  now apply in_map.
Qed.

Lemma resultado_covers GET db i :
  has i (filtrar db GET) ->
  In (pk i) (map (fun x : Selected => pk (fst x)) (resultado db GET)).
Proof.
  intros H. apply (ordenar_has (get_default "ordenacao" "relevancia" GET)) in H.
  apply in_map_iff in H. destruct H as (x & <- & Hx).
  unfold resultado.
  apply (distinct_by_covers (fun x : Selected => pk (fst x)) selected_eqb _ x);
    [apply selected_eqb_pk | exact Hx].
Qed.

Lemma pk_unique_inj db a b :
  pk_unique db -> In a db -> In b db -> pk a = pk b -> a = b.
Proof.
  unfold pk_unique. induction db as [|c db IH]; simpl; [tauto|].
  intros Hnd Ha Hb Hpk. inversion Hnd as [|? ? Hnotin Hnd']; subst.
  destruct Ha as [->|Ha], Hb as [->|Hb]; auto.
  - exfalso. apply Hnotin. rewrite Hpk. now apply in_map.
  - exfalso. apply Hnotin. rewrite <- Hpk. now apply in_map.
Qed.

(** With a primary key, the listings of the result are the listings of
    the store that pass every applied facet. *)
Lemma resultado_has db GET i :
  pk_unique db ->
  In i (map fst (resultado db GET)) <-> In i db /\ qualifies GET i = true.
Proof.
  intros Hpk. rewrite <- filtrar_has. split; [apply resultado_sub|].
  intros H. pose proof (resultado_covers GET db i H) as Hc.
  apply in_map_iff in Hc. destruct Hc as (x & Hx & Hin).
  assert (Hfx : has (fst x) (filtrar db GET)).
  { apply resultado_sub. now apply in_map. }
  apply filtrar_has in Hfx. apply filtrar_has in H.
  assert (fst x = i) by (apply (pk_unique_inj db); tauto).
  subst i. now apply in_map.
Qed.

(** The count is the number of distinct listings of the queryset. *)
Lemma count_NoDup qs : NoDup (map pk (distinct_by pk_eqb (map imovel qs))).
Proof. apply distinct_by_NoDup. intros a b _ _. apply pk_eqb_iff. Qed.

Lemma count_le_resultado db GET :
  (count (filtrar db GET) <= List.length (resultado db GET))%nat.
Proof.
  unfold count.
  rewrite <- (length_map pk), <- (length_map (fun x : Selected => pk (fst x)) (resultado db GET)).
  apply NoDup_incl_length; [apply count_NoDup|].
  intros k Hk. apply in_map_iff in Hk. destruct Hk as (i & <- & Hi).
  apply In_distinct_by in Hi. now apply resultado_covers.
Qed.

Lemma count_le_active db GET :
  (count (filtrar db GET)
   <= List.length (filter (fun i => status_eqb (status i) ATIVO) db))%nat.
Proof.
  unfold count.
  rewrite <- (length_map pk), <- (length_map pk (filter _ db)).
  apply NoDup_incl_length; [apply count_NoDup|].
  intros k Hk. apply in_map_iff in Hk. destruct Hk as (i & <- & Hi).
  apply In_distinct_by in Hi. apply filtrar_has in Hi. destruct Hi as [Hin Hq].
  apply in_map, filter_In. split; [exact Hin|].
  unfold qualifies in Hq. rewrite !andb_true_iff in Hq. tauto.
Qed.

Lemma count_qualifies db GET :
  pk_unique db ->
  count (filtrar db GET) = List.length (filter (qualifies GET) db).
Proof.
  intros Hpk. unfold count.
  rewrite <- (length_map pk), <- (length_map pk (filter _ db)).
  apply Permutation_length, NoDup_Permutation.
  - apply count_NoDup.
  - unfold pk_unique in Hpk. clear - Hpk.
    induction db as [|c db IH]; simpl; [constructor|].
    inversion Hpk; subst. destruct (qualifies GET c); simpl; [|now apply IH].
    constructor; [|now apply IH].
    intros Hin. apply in_map_iff in Hin. destruct Hin as (y & Hy & Hin).
    apply filter_In in Hin. match goal with H : ~ In _ _ |- _ => apply H end.
    rewrite <- Hy. now apply in_map.
  - intros k. split; intros Hk; apply in_map_iff in Hk; destruct Hk as (i & <- & Hi).
    + apply In_distinct_by in Hi. apply filtrar_has in Hi.
      apply in_map. now apply filter_In.
    + apply filter_In in Hi. apply filtrar_has in Hi.
      apply (distinct_by_covers pk pk_eqb); [apply pk_eqb_iff | exact Hi].
Qed.
End ResultFacts.


(** ** The context of [lista_imoveis] *)

Section ViewFacts.
Context {B : Backend}.
Implicit Types (qs : QuerySet) (i : Imovel) (db : Store) (GET : QueryDict).

Lemma total_imoveis_eq db GET :
  total_imoveis (lista_imoveis db GET) = count (filtrar db GET).
Proof. unfold lista_imoveis. now destruct (page_bounds _ _). Qed.

Lemma page_number_eq db GET :
  page_number (lista_imoveis db GET)
  = get_page_number (count (filtrar db GET)) (get "page" GET).
Proof. unfold lista_imoveis. now destruct (page_bounds _ _). Qed.

Lemma page_obj_eq db GET :
  page_obj (lista_imoveis db GET)
  = map fst (slice (fst (page_bounds (total_imoveis (lista_imoveis db GET))
                                     (page_number (lista_imoveis db GET))))
                   (snd (page_bounds (total_imoveis (lista_imoveis db GET))
                                     (page_number (lista_imoveis db GET))))
                   (resultado db GET)).
Proof.
  rewrite total_imoveis_eq, page_number_eq. unfold lista_imoveis.
  now destruct (page_bounds _ _).
Qed.

Lemma f_ordenacao_eq db GET :
  f_ordenacao (filtros_aplicados (lista_imoveis db GET))
  = snd (ordenar (get_default "ordenacao" "relevancia" GET) (filtrar db GET)).
Proof. unfold lista_imoveis. now destruct (page_bounds _ _). Qed.

Lemma page_obj_sub db GET i :
  In i (page_obj (lista_imoveis db GET)) -> In i (map fst (resultado db GET)).
Proof.
  rewrite page_obj_eq. intros H. apply in_map_iff in H.
  destruct H as (x & <- & Hx). apply in_map. now apply In_slice in Hx.
Qed.

Lemma page_obj_qualifies db GET i :
  In i (page_obj (lista_imoveis db GET)) -> In i db /\ qualifies GET i = true.
Proof.
  intros H. now apply filtrar_has, resultado_sub, page_obj_sub.
Qed.

(** The search depends on the request through the filtered queryset, the
    ordering and the page number only. *)
Lemma search_result_congr db GET GET' :
  filtrar db GET = filtrar db GET' ->
  get_default "ordenacao" "relevancia" GET = get_default "ordenacao" "relevancia" GET' ->
  get "page" GET = get "page" GET' ->
  search_result db GET = search_result db GET'.
Proof.
  intros Hf Ho Hp. unfold search_result, lista_imoveis, resultado.
  now rewrite Hf, Ho, Hp.
Qed.

Lemma if_given_None f qs : if_given None f qs = qs.
Proof. reflexivity. Qed.

Lemma if_given_int_fails v f qs :
  py_int v = None -> if_given (Some v) (try_int f) qs = qs.
Proof.
  intros H. unfold if_given, try_int. rewrite H. now destruct (nonempty v).
Qed.

Lemma if_given_float_fails v f qs :
  py_float v = None -> if_given (Some v) (try_float f) qs = qs.
Proof.
  intros H. unfold if_given, try_float. rewrite H. now destruct (nonempty v).
Qed.

Lemma if_true_None f qs : if_true None f qs = qs.
Proof. reflexivity. Qed.

Lemma if_true_skip value f qs : value <> Some "true" -> if_true value f qs = qs.
Proof.
  intros H. unfold if_true. destruct value as [s|]; [|reflexivity].
  destruct (String.eqb s "true") eqn:E; [|reflexivity].
  apply String.eqb_eq in E. now subst s.
Qed.

Lemma fold_try_int_skip f v ids qs :
  py_int v = None ->
  fold_left (fun qs s => try_int f s qs) (filter (fun s => negb (String.eqb s v)) ids) qs
  = fold_left (fun qs s => try_int f s qs) ids qs.
Proof.
  intros H. revert qs. induction ids as [|s ids IH]; intros qs; simpl; [reflexivity|].
  destruct (String.eqb s v) eqn:E; simpl.
  - apply String.eqb_eq in E. subst s.
    replace (try_int f v qs) with qs by (unfold try_int; now rewrite H).
    apply IH.
  - apply IH.
Qed.

(** A numeric facet whose value does not parse leaves the queryset as the
    request without that key does. *)
Lemma filtrar_omit_int db GET key v :
  In key ["quartos"; "banheiros"; "vagas"] ->
  get key GET = Some v -> py_int v = None ->
  filtrar db (omit key GET) = filtrar db GET.
Proof.
  intros Hk Hget Hp. simpl in Hk.
  destruct Hk as [<-|[<-|[<-|[]]]]; unfold filtrar; other_keys;
    rewrite get_omit_eq, Hget, if_given_None, (if_given_int_fails v) by exact Hp;
    reflexivity.
Qed.

Lemma filtrar_omit_float db GET key v :
  In key ["area_min"; "preco_min"; "preco_max"] ->
  get key GET = Some v -> py_float v = None ->
  filtrar db (omit key GET) = filtrar db GET.
Proof.
  intros Hk Hget Hp. simpl in Hk.
  destruct Hk as [<-|[<-|[<-|[]]]]; unfold filtrar; other_keys;
    rewrite get_omit_eq, Hget, if_given_None, (if_given_float_fails v) by exact Hp;
    reflexivity.
Qed.

Lemma filtrar_omit_infraestrutura db GET v :
  py_int v = None ->
  filtrar db (omit_value "infraestrutura" v GET) = filtrar db GET.
Proof.
  intros Hp. unfold filtrar. other_keys.
  rewrite getlist_omit_value_eq. now apply fold_try_int_skip.
Qed.

Lemma filtrar_omit_flag db GET key :
  In key ["pet_friendly"; "financiamento"; "com_fotos"] ->
  get key GET <> Some "true" ->
  filtrar db (omit key GET) = filtrar db GET.
Proof.
  intros Hk Hget. simpl in Hk.
  destruct Hk as [<-|[<-|[<-|[]]]]; unfold filtrar; other_keys;
    rewrite get_omit_eq, if_true_None;
    match type of Hget with
    | get ?k GET <> _ => rewrite (if_true_skip (get k GET)) by exact Hget
    end;
    reflexivity.
Qed.

Lemma search_result_omit db GET key :
  String.eqb "ordenacao" key = false -> String.eqb "page" key = false ->
  filtrar db (omit key GET) = filtrar db GET ->
  search_result db GET = search_result db (omit key GET).
Proof.
  intros Ho Hp Hf. apply search_result_congr.
  - now symmetry.
  - now rewrite get_default_omit_ne.
  - now rewrite get_omit_ne.
Qed.

(** ** The relevance ordering *)

Lemma ordenar_fallback ordenacao qs :
  ordenacao <> "preco_menor" -> ordenacao <> "preco_maior" ->
  ordenacao <> "mais_recentes" -> ordenacao <> "maior_area" ->
  ordenar ordenacao qs
  = (sort_by by_criado_atualizado_desc (select_imovel qs), "relevancia").
Proof.
  intros H1 H2 H3 H4. unfold ordenar.
  apply String.eqb_neq in H1, H2, H3, H4. now rewrite H1, H2, H3, H4.
Qed.

Lemma by_criado_atualizado_desc_iff (a b : Selected) :
  by_criado_atualizado_desc a b = true <-> relevancia_order (fst a) (fst b).
Proof.
  unfold by_criado_atualizado_desc, relevancia_order.
  rewrite orb_true_iff, andb_true_iff, Z.ltb_lt, Z.eqb_eq, Z.leb_le. tauto.
Qed.

Lemma by_criado_atualizado_desc_total (a b : Selected) :
  by_criado_atualizado_desc a b = true \/ by_criado_atualizado_desc b a = true.
Proof.
  rewrite !by_criado_atualizado_desc_iff. unfold relevancia_order. lia.
Qed.

Lemma by_criado_atualizado_desc_trans (a b c : Selected) :
  by_criado_atualizado_desc a b = true -> by_criado_atualizado_desc b c = true ->
  by_criado_atualizado_desc a c = true.
Proof.
  rewrite !by_criado_atualizado_desc_iff. unfold relevancia_order. lia.
Qed.

Lemma StronglySorted_map_fst (R : Imovel -> Imovel -> Prop) (l : list Selected) :
  StronglySorted (fun a b => R (fst a) (fst b)) l -> StronglySorted R (map fst l).
Proof.
  induction 1 as [|x t Hs IH Hall]; simpl; constructor; [exact IH|].
  rewrite Forall_forall in *. intros y Hy. apply in_map_iff in Hy.
  destruct Hy as (z & <- & Hz). now apply Hall.
Qed.

Lemma StronglySorted_weaken {X : Type} (R R' : X -> X -> Prop) (l : list X) :
  (forall a b, R a b -> R' a b) -> StronglySorted R l -> StronglySorted R' l.
Proof.
  intros HR. induction 1 as [|x t Hs IH Hall]; constructor; [exact IH|].
  eapply Forall_impl; [|exact Hall]. intros y. apply HR.
Qed.

Lemma relevancia_sorted qs :
  StronglySorted (fun a b : Selected => relevancia_order (fst a) (fst b))
    (distinct_by selected_eqb (sort_by by_criado_atualizado_desc (select_imovel qs))).
Proof.
  apply StronglySorted_distinct_by.
  apply (StronglySorted_weaken (fun a b => by_criado_atualizado_desc a b = true)).
  - intros a b. apply by_criado_atualizado_desc_iff.
  - apply sort_by_sorted.
    + apply by_criado_atualizado_desc_total.
    + apply by_criado_atualizado_desc_trans.
Qed.

(** ** Listings appear once under the orderings on [Imovel] columns *)

Lemma resultado_NoDup db GET :
  get_default "ordenacao" "relevancia" GET <> "preco_menor" ->
  get_default "ordenacao" "relevancia" GET <> "preco_maior" ->
  NoDup (map (fun x : Selected => pk (fst x)) (resultado db GET)).
Proof.
  intros H1 H2. unfold resultado. apply distinct_by_NoDup.
  assert (Hnone : forall x,
    In x (fst (ordenar (get_default "ordenacao" "relevancia" GET) (filtrar db GET))) ->
    snd x = None).
  { unfold ordenar. apply String.eqb_neq in H1, H2. rewrite H1, H2.
    intros x Hx.
    repeat match type of Hx with
           | context [if ?c then _ else _] => destruct c
           end; simpl in Hx; apply In_sort_by in Hx;
      unfold select_imovel in Hx; apply in_map_iff in Hx;
      now destruct Hx as (r & <- & _). }
  intros a b Ha Hb Hpk. unfold selected_eqb, pk_eqb.
  rewrite (Hnone a Ha), (Hnone b Hb). simpl. rewrite andb_true_r. now apply Z.eqb_eq.
Qed.
End ViewFacts.


(** * The claims *)

Section Claims.
Context {B : Backend}.
Implicit Types (qs : QuerySet) (i : Imovel) (db : Store) (GET : QueryDict).

(** C1: the total reported by the search never exceeds the number of
    active listings of the store, and every listing of the returned page
    is a listing of the store that satisfies each facet predicate the
    request applies (free text, purpose, type, city, district, minimum
    rooms, bathrooms, parking and area, each price bound, furnishing, the
    boolean flags and every amenity). *)
Theorem lista_imoveis_count_and_facets db GET :
  (total_imoveis (lista_imoveis db GET)
   <= List.length (filter (fun i => status_eqb (status i) ATIVO) db))%nat
  /\ forall i, In i (page_obj (lista_imoveis db GET)) ->
       In i db /\ satisfies_facets GET i.
Proof.
  split.
  - rewrite total_imoveis_eq. apply count_le_active.
  - intros i Hi. apply page_obj_qualifies in Hi. destruct Hi as [Hin Hq].
    split; [exact Hin | now apply qualifies_satisfies].
Qed.

(** C2: every listing of every returned page has status active; a sold
    listing is never returned, whatever the facets. *)
Theorem lista_imoveis_only_active db GET i :
  (In i (page_obj (lista_imoveis db GET)) -> status i = ATIVO)
  /\ (status i = VENDIDO -> ~ In i (page_obj (lista_imoveis db GET))).
Proof.
  assert (H : In i (page_obj (lista_imoveis db GET)) -> status i = ATIVO).
  { intros Hi. apply page_obj_qualifies in Hi. destruct Hi as [_ Hq].
    now destruct (qualifies_satisfies GET i Hq). }
  split; [exact H|]. intros Hs Hi. apply H in Hi. congruence.
Qed.

Lemma facet_None p i : facet None p i = true.
Proof. reflexivity. Qed.

Lemma facet_preco_spec value (p : Num -> PrecoPorFinalidade -> bool) i :
  facet value (parsed py_float (fun x => has_preco (p x))) i = true
  <-> (forall v x, value = Some v -> v <> "" -> py_float v = Some x ->
         exists e, In e (precos i) /\ p x e = true).
Proof.
  unfold facet, parsed, has_preco. split.
  - intros H v x -> Hne Hp. apply nonempty_true in Hne. rewrite Hne, Hp in H.
    apply existsb_exists in H. destruct H as (e & He & Hpe). now exists e.
  - intros H. destruct value as [v|]; [|reflexivity].
    destruct (nonempty v) eqn:Hne; [|reflexivity].
    destruct (py_float v) as [x|] eqn:Hp; [|reflexivity].
    apply nonempty_true in Hne. destruct (H v x eq_refl Hne Hp) as (e & He & Hpe).
    apply existsb_exists. now exists e.
Qed.

Lemma infra_spec ids i :
  forallb (fun s => parsed py_int has_infra s i) ids = true
  <-> (forall v n, In v ids -> py_int v = Some n -> In n (infraestrutura i)).
Proof.
  rewrite forallb_forall. unfold parsed, has_infra. split.
  - intros H v n Hv Hp. specialize (H v Hv). rewrite Hp in H.
    apply existsb_exists in H. destruct H as (m & Hm & Heq).
    apply Z.eqb_eq in Heq. now subst m.
  - intros H v Hv. destruct (py_int v) as [n|] eqn:Hp; [|reflexivity].
    apply existsb_exists. exists n. split; [now apply (H v)|apply Z.eqb_refl].
Qed.

Lemma qualifies_split_precos GET i :
  qualifies GET i = true
  <-> qualifies (omit "preco_min" (omit "preco_max" GET)) i = true
      /\ facet (get "preco_min" GET)
           (parsed py_float (fun x => has_preco (fun e => num_leb x (valor e)))) i = true
      /\ facet (get "preco_max" GET)
           (parsed py_float (fun x => has_preco (fun e => num_leb (valor e) x))) i = true.
Proof.
  unfold qualifies. cbv zeta. other_keys. rewrite !get_omit_eq, !facet_None.
  rewrite !andb_true_iff. tauto.
Qed.

Lemma qualifies_split_infraestrutura GET i :
  qualifies GET i = true
  <-> qualifies (omit "infraestrutura" GET) i = true
      /\ forallb (fun s => parsed py_int has_infra s i) (getlist "infraestrutura" GET) = true.
Proof.
  unfold qualifies. cbv zeta. other_keys. rewrite getlist_omit_eq.
  simpl forallb. rewrite !andb_true_iff. tauto.
Qed.

(** C4 (as the code has it): each price bound is a filter step of its
    own. A listing is in the result exactly when it is in the result of
    the request without the two bounds, some price entry of it is at
    least the minimum (when one is given and parses) and some price entry
    of it, the same one or another, is at most the maximum (when one is
    given and parses). *)
Theorem preco_bounds_independent db GET i :
  pk_unique db ->
  In i (map fst (resultado db GET))
  <-> In i (map fst (resultado db (omit "preco_min" (omit "preco_max" GET))))
      /\ (forall v x, get "preco_min" GET = Some v -> v <> "" -> py_float v = Some x ->
            exists e, In e (precos i) /\ num_leb x (valor e) = true)
      /\ (forall v x, get "preco_max" GET = Some v -> v <> "" -> py_float v = Some x ->
            exists e, In e (precos i) /\ num_leb (valor e) x = true).
Proof.
  intros Hpk. rewrite !resultado_has by exact Hpk.
  rewrite qualifies_split_precos.
  rewrite (facet_preco_spec _ (fun x e => num_leb x (valor e))).
  rewrite (facet_preco_spec _ (fun x e => num_leb (valor e) x)).
  tauto.
Qed.

Lemma getlist_GET_infra ids :
  getlist "infraestrutura" (Exemplos.GET_infra ids) = ids.
Proof.
  unfold getlist, Exemplos.GET_infra.
  induction ids as [|s ids IH]; [reflexivity|].
  cbn [map filter fst snd]. rewrite String.eqb_refl. cbn [map snd]. now rewrite IH.
Qed.

Lemma get_GET_infra key ids :
  String.eqb key "infraestrutura" = false -> get key (Exemplos.GET_infra ids) = None.
Proof.
  intros Hne. unfold get, getlist, Exemplos.GET_infra.
  rewrite String.eqb_sym in Hne.
  induction ids as [|s ids IH]; [reflexivity|].
  cbn [map filter fst]. rewrite Hne. exact IH.
Qed.

Lemma qualifies_GET_infra ids i :
  qualifies (Exemplos.GET_infra ids) i
  = status_eqb (status i) ATIVO
    && forallb (fun s => parsed py_int has_infra s i) ids.
Proof.
  unfold qualifies, get_default. cbv zeta.
  rewrite !get_GET_infra by reflexivity. rewrite getlist_GET_infra.
  change (nonempty (strip "")) with false.
  cbv beta iota delta [facet flag].
  now rewrite !andb_true_r.
Qed.

(** C5: the amenity facet is conjunctive. A listing is in the result
    exactly when it is a listing of the store that passes the other
    facets of the request and has every amenity whose id was supplied
    (and parses); for a request made of amenity ids alone, an active
    listing of the store is in the result exactly when it has every one
    of them. So a listing with the amenities a and b is returned for a
    request for a and for a request for a and b, and is not returned for
    a request for a, b and a third amenity c. *)
Theorem infraestrutura_conjunctive db GET i :
  pk_unique db ->
  (In i (map fst (resultado db GET))
   <-> In i (map fst (resultado db (omit "infraestrutura" GET)))
       /\ (forall v n, In v (getlist "infraestrutura" GET) -> py_int v = Some n ->
             In n (infraestrutura i)))
  /\ (In i (map fst (resultado db GET))
      <-> In i db /\ qualifies (omit "infraestrutura" GET) i = true
          /\ (forall v n, In v (getlist "infraestrutura" GET) -> py_int v = Some n ->
                In n (infraestrutura i)))
  /\ (In i db -> status i = ATIVO ->
      forall ids,
        In i (map fst (resultado db (Exemplos.GET_infra ids)))
        <-> (forall v n, In v ids -> py_int v = Some n -> In n (infraestrutura i)))
  /\ (In i db -> status i = ATIVO ->
      forall a b c sa sb sc,
        infraestrutura i = [a; b] ->
        py_int sa = Some a -> py_int sb = Some b -> py_int sc = Some c ->
        c <> a -> c <> b ->
        In i (map fst (resultado db (Exemplos.GET_infra [sa])))
        /\ In i (map fst (resultado db (Exemplos.GET_infra [sa; sb])))
        /\ ~ In i (map fst (resultado db (Exemplos.GET_infra [sa; sb; sc])))).
Proof.
  intros Hpk.
  assert (Hrel : In i (map fst (resultado db GET))
     <-> In i db /\ qualifies (omit "infraestrutura" GET) i = true
         /\ (forall v n, In v (getlist "infraestrutura" GET) -> py_int v = Some n ->
               In n (infraestrutura i))).
  { rewrite resultado_has by exact Hpk.
    rewrite qualifies_split_infraestrutura, infra_spec. tauto. }
  assert (Hids : In i db -> status i = ATIVO -> forall ids,
     In i (map fst (resultado db (Exemplos.GET_infra ids)))
     <-> (forall v n, In v ids -> py_int v = Some n -> In n (infraestrutura i))).
  { intros Hi Hs ids. rewrite resultado_has by exact Hpk.
    rewrite qualifies_GET_infra, andb_true_iff, infra_spec, Hs. simpl. tauto. }
  split; [|split; [exact Hrel|split; [exact Hids|]]].
  - rewrite Hrel. rewrite (resultado_has db (omit "infraestrutura" GET)) by exact Hpk.
    tauto.
  - intros Hi Hs a b c sa sb sc Hinf Ha Hb Hc Hca Hcb.
    rewrite !(Hids Hi Hs), Hinf. repeat split.
    + intros v n [<-|[]] Hv. left. congruence.
    + intros v n [<-|[<-|[]]] Hv; [left | right; left]; congruence.
    + intros H. destruct (H sc c) as [Hx|[Hx|[]]]; [simpl; tauto | exact Hc | | ];
        congruence.
Qed.

(** C6: a value of [ordenacao] other than the four recognised orderings
    (or none at all) gives the very context the value [relevancia] gives:
    the same page, the same total, and the echoed [ordenacao] is
    [relevancia]; the result is ordered by creation time descending, then
    update time descending. *)
Theorem ordenacao_fallback db GET :
  get_default "ordenacao" "relevancia" GET <> "preco_menor" ->
  get_default "ordenacao" "relevancia" GET <> "preco_maior" ->
  get_default "ordenacao" "relevancia" GET <> "mais_recentes" ->
  get_default "ordenacao" "relevancia" GET <> "maior_area" ->
  lista_imoveis db GET = lista_imoveis db (set_param "ordenacao" "relevancia" GET)
  /\ f_ordenacao (filtros_aplicados (lista_imoveis db GET)) = "relevancia"
  /\ StronglySorted relevancia_order (map fst (resultado db GET))
  /\ StronglySorted relevancia_order (page_obj (lista_imoveis db GET)).
Proof.
  intros H1 H2 H3 H4.
  assert (Hres : resultado db GET
                 = distinct_by selected_eqb
                     (sort_by by_criado_atualizado_desc (select_imovel (filtrar db GET)))).
  { unfold resultado. now rewrite ordenar_fallback. }
  assert (Hsorted : StronglySorted
            (fun a b : Selected => relevancia_order (fst a) (fst b)) (resultado db GET)).
  { rewrite Hres. apply relevancia_sorted. }
  repeat split.
  - unfold lista_imoveis, resultado.
    assert (Hf : filtrar db (set_param "ordenacao" "relevancia" GET) = filtrar db GET).
    { unfold filtrar. other_keys. reflexivity. }
    assert (Ho : get_default "ordenacao" "relevancia"
                   (set_param "ordenacao" "relevancia" GET) = "relevancia").
    { unfold get_default. now rewrite get_set_param_eq. }
    rewrite Hf, Ho. other_keys.
    rewrite (ordenar_fallback (get_default "ordenacao" "relevancia" GET)) by assumption.
    rewrite (ordenar_fallback "relevancia") by discriminate.
    reflexivity.
  - rewrite f_ordenacao_eq. now rewrite ordenar_fallback.
  - now apply StronglySorted_map_fst.
  - rewrite page_obj_eq. now apply StronglySorted_map_fst, StronglySorted_slice.
Qed.

(** C7: a numeric facet whose value does not parse is skipped without an
    error. The search returns the page, page number and total it returns
    for the request without that key; an amenity id that does not parse
    is skipped alone, the other ids still apply. In particular
    [quartos=abc] gives what the request without [quartos] gives. *)
Theorem unparsable_facet_ignored db GET :
  (forall key v, In key ["quartos"; "banheiros"; "vagas"] ->
     get key GET = Some v -> py_int v = None ->
     search_result db GET = search_result db (omit key GET))
  /\ (forall key v, In key ["area_min"; "preco_min"; "preco_max"] ->
        get key GET = Some v -> py_float v = None ->
        search_result db GET = search_result db (omit key GET))
  /\ (forall v, py_int v = None ->
        search_result db GET = search_result db (omit_value "infraestrutura" v GET)).
Proof.
  repeat split.
  - intros key v Hk Hget Hp.
    assert (Hf := filtrar_omit_int db GET key v Hk Hget Hp).
    simpl in Hk. destruct Hk as [<-|[<-|[<-|[]]]];
      now apply search_result_omit.
  - intros key v Hk Hget Hp.
    assert (Hf := filtrar_omit_float db GET key v Hk Hget Hp).
    simpl in Hk. destruct Hk as [<-|[<-|[<-|[]]]];
      now apply search_result_omit.
  - intros v Hp. apply search_result_congr.
    + symmetry. now apply filtrar_omit_infraestrutura.
    + now rewrite get_default_omit_value_ne.
    + now rewrite get_omit_value_ne.
Qed.

Lemma num_pages_pos cnt : (1 <= num_pages cnt)%nat.
Proof.
  unfold num_pages, per_page. apply Nat.div_le_lower_bound; lia.
Qed.

Lemma get_page_number_pos cnt number : (1 <= get_page_number cnt number)%nat.
Proof.
  unfold get_page_number. destruct number as [s|]; [|lia].
  destruct (py_int s) as [n|]; [|lia].
  destruct (n <? 1) eqn:E1; [apply num_pages_pos|].
  destruct (Z.of_nat (num_pages cnt) <? n); [apply num_pages_pos|].
  apply Z.ltb_ge in E1. lia.
Qed.

Lemma page_bounds_top cnt number : (snd (page_bounds cnt number) <= cnt)%nat.
Proof.
  unfold page_bounds, per_page. cbn [fst snd].
  destruct (cnt <=? (number - 1) * 12 + 12)%nat eqn:E; [lia|].
  apply Nat.leb_gt in E. lia.
Qed.

Lemma page_bounds_width cnt number :
  (snd (page_bounds cnt number) - fst (page_bounds cnt number)
   = Nat.min per_page (cnt - (number - 1) * per_page))%nat.
Proof.
  unfold page_bounds, per_page. cbn [fst snd].
  destruct (cnt <=? (number - 1) * 12 + 12)%nat eqn:E.
  - apply Nat.leb_le in E. lia.
  - apply Nat.leb_gt in E. lia.
Qed.

(** C8: pages hold 12 listings and are numbered from 1. A page never has
    more than 12 listings; it has exactly the listings left from its
    offset, up to 12, so that page 2 of 13 matches has one listing; the
    total is the number of listings of the store that pass the facets,
    each counted once, whatever the page. *)
Theorem paginacao_12 db GET :
  let c := lista_imoveis db GET in
  (List.length (page_obj c) <= 12)%nat
  /\ (1 <= page_number c)%nat
  /\ List.length (page_obj c)
     = Nat.min 12 (total_imoveis c - (page_number c - 1) * 12)
  /\ (forall s, get "page" GET = Some s -> py_int s = Some 2 ->
        total_imoveis c = 13%nat ->
        page_number c = 2%nat /\ List.length (page_obj c) = 1%nat)
  /\ (pk_unique db -> total_imoveis c = List.length (filter (qualifies GET) db))
  /\ total_imoveis c = total_imoveis (lista_imoveis db (omit "page" GET)).
Proof.
  cbv zeta.
  assert (Hlen : List.length (page_obj (lista_imoveis db GET))
     = Nat.min 12 (total_imoveis (lista_imoveis db GET)
                   - (page_number (lista_imoveis db GET) - 1) * 12)).
  { rewrite page_obj_eq, length_map, length_slice.
    - apply page_bounds_width.
    - etransitivity; [apply page_bounds_top|].
      rewrite total_imoveis_eq. apply count_le_resultado. }
  split; [rewrite Hlen; apply Nat.le_min_l|].
  split; [rewrite page_number_eq; apply get_page_number_pos|].
  split; [exact Hlen|].
  split; [|split].
  - intros s Hs Hp Ht.
    assert (Hn : page_number (lista_imoveis db GET) = 2%nat).
    { rewrite page_number_eq, <- total_imoveis_eq, Ht, Hs.
      unfold get_page_number. now rewrite Hp. }
    split; [exact Hn|]. now rewrite Hlen, Hn, Ht.
  - intros Hpk. rewrite total_imoveis_eq. now apply count_qualifies.
  - rewrite !total_imoveis_eq. f_equal. unfold filtrar. other_keys. reflexivity.
Qed.

Lemma pk_unique_NoDup db : pk_unique db -> NoDup db.
Proof. apply NoDup_map_inv. Qed.

Lemma pk_filter_at_most_one db key (f : Imovel -> bool) a b l :
  pk_unique db ->
  filter (fun i => Z.eqb (pk i) key && f i) db = a :: b :: l -> False.
Proof.
  intros Hpk Hf.
  assert (Ha : In a (filter (fun i => Z.eqb (pk i) key && f i) db))
    by (rewrite Hf; now left).
  assert (Hb : In b (filter (fun i => Z.eqb (pk i) key && f i) db))
    by (rewrite Hf; right; now left).
  apply filter_In in Ha, Hb. destruct Ha as [Ha Hka], Hb as [Hb Hkb].
  apply andb_true_iff in Hka, Hkb. destruct Hka as [Hka _], Hkb as [Hkb _].
  apply Z.eqb_eq in Hka, Hkb.
  assert (a = b) by (apply (pk_unique_inj db); congruence).
  subst b.
  assert (Hnd : NoDup (a :: a :: l)).
  { rewrite <- Hf. now apply NoDup_filter, pk_unique_NoDup. }
  inversion Hnd as [|? ? Hnot _]; subst. apply Hnot. now left.
Qed.

(** C9: the detail view raises [Http404] exactly when the store has no
    active listing with the given key, so also when the listing with that
    key is not active; otherwise it renders that listing, and it fails in
    no other way. *)
Theorem detalhe_imovel_not_found db key :
  pk_unique db ->
  (detalhe_imovel db key = Http404
   <-> ~ exists i, In i db /\ pk i = key /\ status i = ATIVO)
  /\ (forall i, In i db -> pk i = key -> status i <> ATIVO ->
        detalhe_imovel db key = Http404)
  /\ (forall i, In i db -> pk i = key -> status i = ATIVO ->
        exists c, detalhe_imovel db key = Rendered c /\ d_imovel c = i)
  /\ detalhe_imovel db key <> MultipleObjectsReturned.
Proof.
  intros Hpk.
  assert (Hmem : forall i,
    In i (filter (fun i => Z.eqb (pk i) key && status_eqb (status i) ATIVO) db)
    <-> In i db /\ pk i = key /\ status i = ATIVO).
  { intros i. rewrite filter_In, andb_true_iff, Z.eqb_eq.
    assert (status_eqb (status i) ATIVO = true <-> status i = ATIVO)
      by (destruct (status i); simpl; split; congruence).
    tauto. }
  assert (Hfound : forall i, In i db -> pk i = key -> status i = ATIVO ->
    exists c, detalhe_imovel db key = Rendered c /\ d_imovel c = i).
  { intros i Hi Hk Hs. unfold detalhe_imovel, get_object_or_404.
    destruct (filter _ db) as [|a [|b l]] eqn:Hf.
    - exfalso. exact (proj2 (Hmem i) (conj Hi (conj Hk Hs))).
    - destruct (proj2 (Hmem i) (conj Hi (conj Hk Hs))) as [->|[]].
      eexists. split; reflexivity.
    - exfalso. exact (pk_filter_at_most_one db key _ a b l Hpk Hf). }
  assert (H404 : detalhe_imovel db key = Http404
                 <-> ~ exists i, In i db /\ pk i = key /\ status i = ATIVO).
  { split.
    - intros H (i & Hi & Hk & Hs). destruct (Hfound i Hi Hk Hs) as (c & Hc & _).
      congruence.
    - intros Hnone. unfold detalhe_imovel, get_object_or_404.
      destruct (filter _ db) as [|a l] eqn:Hf; [reflexivity|].
      exfalso. apply Hnone. exists a. apply Hmem. now left. }
  split; [exact H404|]. split; [|split; [exact Hfound|]].
  - intros i Hi Hk Hs. apply H404. intros (j & Hj & Hkj & Hsj).
    assert (i = j) by (apply (pk_unique_inj db); congruence). now subst j.
  - unfold detalhe_imovel, get_object_or_404.
    destruct (filter _ db) as [|a [|b l]] eqn:Hf; try discriminate.
    exfalso. exact (pk_filter_at_most_one db key _ a b l Hpk Hf).
Qed.

(** C10: the facets [pet_friendly], [financiamento] and [com_fotos]
    filter only when the raw value is the lowercase string [true]. With
    any other value, or none, the search returns what the request without
    the key returns; with [true], every listing of the page has the flag
    (has a photo, for [com_fotos]). *)
Theorem boolean_flags_only_true db GET key :
  In key ["pet_friendly"; "financiamento"; "com_fotos"] ->
  (get key GET <> Some "true" ->
   search_result db GET = search_result db (omit key GET))
  /\ (get key GET = Some "true" ->
      forall i, In i (page_obj (lista_imoveis db GET)) ->
        (key = "pet_friendly" -> pet_friendly i = true)
        /\ (key = "financiamento" -> aceita_financiamento i = true)
        /\ (key = "com_fotos" -> fotos i <> [])).
Proof.
  intros Hk. split.
  - intros Hget. assert (Hf := filtrar_omit_flag db GET key Hk Hget).
    simpl in Hk. destruct Hk as [<-|[<-|[<-|[]]]];
      now apply search_result_omit.
  - intros Hget i Hi. apply page_obj_qualifies in Hi. destruct Hi as [_ Hq].
    destruct (qualifies_satisfies GET i Hq).
    repeat split; intros ->; auto.
Qed.
End Claims.

(** * The claims on the reference backend *)

Module Casos.
Import Ref Exemplos.

(** A store given by extension has a primary key. *)
Ltac pk_unique_tac :=
  unfold pk_unique; simpl;
  repeat (constructor; [simpl; intuition discriminate|]); constructor.

(** C3: ordering by price defeats [distinct()]. The store holds a listing
    with three prices between 5 and 50 and a second listing priced 15;
    the request asks for that range sorted by ascending price. The rows
    the paginator slices hold the first listing three times, the total is
    2, and the page is the first listing twice: the second listing is on
    no page. *)
Theorem price_order_repeats_listing :
  map (fun x : Selected => pk (fst x)) (resultado db_tres GET_faixa_ordenada)
  = [7; 7; 7; 2]
  /\ total_imoveis (lista_imoveis db_tres GET_faixa_ordenada) = 2%nat
  /\ page_obj (lista_imoveis db_tres GET_faixa_ordenada) = [casa_tres; casa_tres]
  /\ ~ In (pk casa_b) (map pk (page_obj (lista_imoveis db_tres GET_faixa_ordenada)))
  /\ page_obj (lista_imoveis db_duas GET_preco_menor) = [casa_a; casa_a].
Proof.
  split; [reflexivity|]. split; [reflexivity|]. split; [reflexivity|].
  split; [|reflexivity].
  vm_compute. intros [H|[H|[]]]; discriminate H.
Qed.

(** The same range under the default ordering: each listing once. *)
Example faixa_relevancia_once :
  page_obj (lista_imoveis db_tres GET_so_faixa) = [casa_tres; casa_b]
  /\ total_imoveis (lista_imoveis db_tres GET_so_faixa) = 2%nat.
Proof. split; reflexivity. Qed.

(** C4 (as stated): the listing priced 1000 and 100 is returned for the
    range 200 to 500, though none of its price entries lies in the
    range. *)
Lemma preco_range_counterexample :
  page_obj (lista_imoveis [casa_c] GET_faixa) = [casa_c]
  /\ py_float "200" = Some (QArith_base.inject_Z 200)
  /\ py_float "500" = Some (QArith_base.inject_Z 500)
  /\ ~ exists e, In e (precos casa_c)
        /\ num_leb (QArith_base.inject_Z 200) (valor e) = true
        /\ num_leb (valor e) (QArith_base.inject_Z 500) = true.
Proof.
  split; [reflexivity|]. split; [reflexivity|]. split; [reflexivity|].
  intros (e & Hin & Hmin & Hmax).
  destruct Hin as [<-|[<-|[]]]; vm_compute in Hmin, Hmax; discriminate.
Qed.

Lemma preco_bounds_independent_witness :
  In casa_c (map fst (resultado [casa_c] GET_faixa))
  <-> In casa_c (map fst (resultado [casa_c] (omit "preco_min" (omit "preco_max" GET_faixa))))
      /\ (forall v x, get "preco_min" GET_faixa = Some v -> v <> "" -> py_float v = Some x ->
            exists e, In e (precos casa_c) /\ num_leb x (valor e) = true)
      /\ (forall v x, get "preco_max" GET_faixa = Some v -> v <> "" -> py_float v = Some x ->
            exists e, In e (precos casa_c) /\ num_leb (valor e) x = true).
Proof.
  apply (preco_bounds_independent [casa_c] GET_faixa casa_c). pk_unique_tac.
Defined.

Lemma infraestrutura_conjunctive_witness :
  infraestrutura casa_d = [1; 2]
  /\ In casa_d (map fst (resultado db_mista (GET_infra ["1"])))
  /\ In casa_d (map fst (resultado db_mista (GET_infra ["1"; "2"])))
  /\ ~ In casa_d (map fst (resultado db_mista (GET_infra ["1"; "2"; "3"]))).
Proof.
  split; [reflexivity|].
  assert (Hpk : pk_unique db_mista) by pk_unique_tac.
  assert (Hi : In casa_d db_mista) by (simpl; tauto).
  apply (proj2 (proj2 (proj2
           (infraestrutura_conjunctive db_mista (GET_infra ["1"; "2"]) casa_d Hpk)))
           Hi eq_refl 1 2 3 "1" "2" "3");
    first [reflexivity | discriminate].
Defined.

(** The scenario of C5: amenities 1 and 2 do not match a request for 1, 2
    and 3, and match a request for 1 and one for 1 and 2. *)
Example infraestrutura_scenario :
  infraestrutura casa_d = [1; 2]
  /\ page_obj (lista_imoveis db_mista (GET_infra ["1"; "2"; "3"])) = []
  /\ page_obj (lista_imoveis db_mista (GET_infra ["1"])) = [casa_d; casa_pet]
  /\ page_obj (lista_imoveis db_mista (GET_infra ["1"; "2"])) = [casa_d].
Proof. repeat (split; [reflexivity|]). reflexivity. Qed.

Lemma ordenacao_fallback_witness :
  lista_imoveis db_duas GET_bogus
  = lista_imoveis db_duas (set_param "ordenacao" "relevancia" GET_bogus)
  /\ f_ordenacao (filtros_aplicados (lista_imoveis db_duas GET_bogus)) = "relevancia"
  /\ StronglySorted relevancia_order (map fst (resultado db_duas GET_bogus))
  /\ StronglySorted relevancia_order (page_obj (lista_imoveis db_duas GET_bogus)).
Proof.
  apply (ordenacao_fallback db_duas GET_bogus); vm_compute; discriminate.
Defined.

Lemma unparsable_facet_ignored_witness :
  get "quartos" GET_abc = Some "abc" /\ py_int "abc" = None
  /\ search_result db_mista GET_abc = search_result db_mista (omit "quartos" GET_abc).
Proof.
  split; [reflexivity|]. split; [reflexivity|].
  apply (proj1 (unparsable_facet_ignored db_mista GET_abc) "quartos" "abc").
  - simpl. tauto.
  - reflexivity.
  - reflexivity.
Defined.

(** The raw value is still echoed in ['filtros_aplicados']. *)
Example unparsable_facet_echoed :
  f_quartos (filtros_aplicados (lista_imoveis db_mista GET_abc)) = Some "abc"
  /\ f_quartos (filtros_aplicados (lista_imoveis db_mista (omit "quartos" GET_abc)))
     = None.
Proof. split; reflexivity. Qed.

(** City and minimum area together, in the default order. *)
Example springfield_scenario :
  map pk (page_obj (lista_imoveis db_springfield GET_springfield)) = [23; 22]
  /\ total_imoveis (lista_imoveis db_springfield GET_springfield) = 2%nat
  /\ f_ordenacao (filtros_aplicados (lista_imoveis db_springfield GET_springfield))
     = "relevancia".
Proof. repeat split; reflexivity. Qed.

Lemma paginacao_12_witness :
  total_imoveis (lista_imoveis db_treze GET_page2) = 13%nat
  /\ page_number (lista_imoveis db_treze GET_page2) = 2%nat
  /\ List.length (page_obj (lista_imoveis db_treze GET_page2)) = 1%nat.
Proof.
  split; [reflexivity|].
  apply (proj1 (proj2 (proj2 (proj2 (paginacao_12 db_treze GET_page2)))) "2");
    reflexivity.
Defined.

Lemma detalhe_imovel_not_found_witness :
  (detalhe_imovel db_mista 5 = Http404
   <-> ~ exists i, In i db_mista /\ pk i = 5 /\ status i = ATIVO)
  /\ (forall i, In i db_mista -> pk i = 5 -> status i <> ATIVO ->
        detalhe_imovel db_mista 5 = Http404)
  /\ (forall i, In i db_mista -> pk i = 5 -> status i = ATIVO ->
        exists c, detalhe_imovel db_mista 5 = Rendered c /\ d_imovel c = i)
  /\ detalhe_imovel db_mista 5 <> MultipleObjectsReturned.
Proof.
  apply (detalhe_imovel_not_found db_mista 5). pk_unique_tac.
Defined.

(** The sold listing is not found; an active one is rendered. *)
Example detalhe_scenario :
  detalhe_imovel db_mista 5 = Http404
  /\ exists c, detalhe_imovel db_mista 6 = Rendered c /\ d_imovel c = casa_pet.
Proof.
  split; [reflexivity|]. eexists. split; reflexivity.
Qed.

Lemma boolean_flags_only_true_witness :
  (get "pet_friendly" GET_True <> Some "true" ->
   search_result db_mista GET_True = search_result db_mista (omit "pet_friendly" GET_True))
  /\ (get "pet_friendly" GET_True = Some "true" ->
      forall i, In i (page_obj (lista_imoveis db_mista GET_True)) ->
        ("pet_friendly" = "pet_friendly" -> pet_friendly i = true)
        /\ ("pet_friendly" = "financiamento" -> aceita_financiamento i = true)
        /\ ("pet_friendly" = "com_fotos" -> fotos i <> [])).
Proof.
  apply (boolean_flags_only_true db_mista GET_True "pet_friendly").
  simpl. tauto.
Defined.
End Casos.


(** * Further properties of the views *)

(** ** Facets that are given but empty, blank or unknown *)

Section FacetEdges.
Context {B : Backend}.
Implicit Types (qs : QuerySet) (i : Imovel) (db : Store) (GET : QueryDict).

Lemma get_omit_any k key GET :
  get key (omit k GET) = if String.eqb key k then None else get key GET.
Proof.
  destruct (String.eqb key k) eqn:E.
  - apply String.eqb_eq in E. subst. apply get_omit_eq.
  - now apply get_omit_ne.
Qed.

Lemma getlist_omit_any k key GET :
  getlist key (omit k GET) = if String.eqb key k then [] else getlist key GET.
Proof.
  destruct (String.eqb key k) eqn:E.
  - apply String.eqb_eq in E. subst. apply getlist_omit_eq.
  - now apply getlist_omit_ne.
Qed.

Lemma filtrar_omit_empty db GET key :
  In key ["finalidade"; "tipo"; "cidade"; "bairro"; "quartos"; "banheiros";
          "vagas"; "area_min"; "preco_min"; "preco_max"; "mobilia"] ->
  get key GET = Some "" ->
  filtrar db (omit key GET) = filtrar db GET.
Proof.
  intros Hk Hget. simpl in Hk.
  repeat (destruct Hk as [<-|Hk];
          [unfold filtrar; other_keys; rewrite get_omit_eq, Hget; reflexivity|]).
  destruct Hk.
Qed.

(** A facet submitted with an empty value, as an untouched form field is,
    filters nothing: the search returns what the request without the key
    returns. *)
Theorem empty_facet_ignored db GET key :
  In key ["finalidade"; "tipo"; "cidade"; "bairro"; "quartos"; "banheiros";
          "vagas"; "area_min"; "preco_min"; "preco_max"; "mobilia"] ->
  get key GET = Some "" ->
  search_result db GET = search_result db (omit key GET).
Proof.
  intros Hk Hget. assert (Hf := filtrar_omit_empty db GET key Hk Hget).
  simpl in Hk.
  repeat (destruct Hk as [<-|Hk]; [now apply search_result_omit|]).
  destruct Hk.
Qed.

(** A free-text query that is blank once stripped filters nothing, and is
    echoed as the empty string. *)
Theorem blank_busca_ignored db GET :
  strip (get_default "busca" "" GET) = "" ->
  search_result db GET = search_result db (omit "busca" GET)
  /\ f_busca (filtros_aplicados (lista_imoveis db GET)) = "".
Proof.
  intros Hb. split.
  - apply search_result_omit; try reflexivity.
    unfold filtrar. other_keys.
    replace (get_default "busca" "" (omit "busca" GET)) with ""
      by (unfold get_default; now rewrite get_omit_eq).
    rewrite Hb. reflexivity.
  - unfold lista_imoveis. destruct (page_bounds _ _). exact Hb.
Qed.

(** The view reads no key besides its own: a parameter under any other
    name changes nothing of the context. *)
Theorem unknown_key_ignored db GET key :
  ~ In key chaves_lidas ->
  lista_imoveis db (omit key GET) = lista_imoveis db GET.
Proof.
  intros Hk.
  assert (Hne : forall k, In k chaves_lidas -> String.eqb k key = false).
  { intros k Hin. apply String.eqb_neq. intros ->. now apply Hk. }
  assert (Hget : forall k, In k chaves_lidas -> get k (omit key GET) = get k GET).
  { intros k Hin. rewrite get_omit_any. now rewrite (Hne k Hin). }
  assert (Hlist : forall k, In k chaves_lidas ->
                    getlist k (omit key GET) = getlist k GET).
  { intros k Hin. rewrite getlist_omit_any. now rewrite (Hne k Hin). }
  assert (Hdef : forall k d, In k chaves_lidas ->
                   get_default k d (omit key GET) = get_default k d GET).
  { intros k d Hin. unfold get_default. now rewrite Hget. }
  assert (Hf : filtrar db (omit key GET) = filtrar db GET).
  { unfold filtrar.
    rewrite (Hdef "busca"), (Hlist "infraestrutura"), !Hget
      by (unfold chaves_lidas; simpl; tauto).
    reflexivity. }
  unfold lista_imoveis, resultado.
  rewrite Hf, (Hdef "busca"), (Hdef "ordenacao"), (Hlist "infraestrutura"), !Hget
    by (unfold chaves_lidas; simpl; tauto).
  reflexivity.
Qed.

(** The echoed ordering is always one of the five the view knows, and a
    recognised one is echoed as given. *)
Theorem ordenacao_echo_domain db GET :
  In (f_ordenacao (filtros_aplicados (lista_imoveis db GET)))
     ["preco_menor"; "preco_maior"; "mais_recentes"; "maior_area"; "relevancia"]
  /\ (In (get_default "ordenacao" "relevancia" GET)
         ["preco_menor"; "preco_maior"; "mais_recentes"; "maior_area"; "relevancia"] ->
      f_ordenacao (filtros_aplicados (lista_imoveis db GET))
      = get_default "ordenacao" "relevancia" GET).
Proof.
  rewrite f_ordenacao_eq. unfold ordenar.
  destruct (String.eqb _ "preco_menor") eqn:E1;
    [apply String.eqb_eq in E1; rewrite E1; simpl; tauto|].
  destruct (String.eqb _ "preco_maior") eqn:E2;
    [apply String.eqb_eq in E2; rewrite E2; simpl; tauto|].
  destruct (String.eqb _ "mais_recentes") eqn:E3;
    [apply String.eqb_eq in E3; rewrite E3; simpl; tauto|].
  destruct (String.eqb _ "maior_area") eqn:E4;
    [apply String.eqb_eq in E4; rewrite E4; simpl; tauto|].
  apply String.eqb_neq in E1, E2, E3, E4. simpl. split; [tauto|].
  intros [H|[H|[H|[H|[H|[]]]]]]; congruence.
Qed.
End FacetEdges.

(** ** Narrowing: what a facet can and cannot do to the result *)

Section Narrowing.
Context {B : Backend}.
Implicit Types (qs : QuerySet) (i : Imovel) (db : Store) (GET : QueryDict).

Lemma facet_omit_mono k key GET p i :
  facet (get key GET) p i = true -> facet (get key (omit k GET)) p i = true.
Proof.
  rewrite get_omit_any. now destruct (String.eqb key k).
Qed.

Lemma flag_omit_mono k key GET p i :
  flag (get key GET) p i = true -> flag (get key (omit k GET)) p i = true.
Proof.
  rewrite get_omit_any. now destruct (String.eqb key k).
Qed.

Lemma qualifies_omit_mono k GET i :
  qualifies GET i = true -> qualifies (omit k GET) i = true.
Proof.
  unfold qualifies. cbv zeta. rewrite !andb_true_iff.
  intros [[[[[[[[[[[[[[[[Hst Hbu] Hfi] Hti] Hci] Hba] Hqu] Hbn] Hva] Har] Hmi] Hma]
                    Hmo] Hpe] Hfn] Hfo] Hin].
  repeat split;
    try (now apply facet_omit_mono); try (now apply flag_omit_mono);
    try assumption.
  - unfold get_default. rewrite get_omit_any.
    destruct (String.eqb "busca" k); [reflexivity | exact Hbu].
  - rewrite getlist_omit_any.
    destruct (String.eqb "infraestrutura" k); [reflexivity | exact Hin].
Qed.

(** Leaving a key out of the request never loses a listing: the total
    does not decrease, and every listing of the result is still in the
    result. *)
Theorem omit_never_narrows db GET key :
  (total_imoveis (lista_imoveis db GET)
   <= total_imoveis (lista_imoveis db (omit key GET)))%nat
  /\ (forall i, In i (map fst (resultado db GET)) ->
        In (pk i) (map pk (map fst (resultado db (omit key GET)))))
  /\ (pk_unique db ->
      forall i, In i (map fst (resultado db GET)) ->
        In i (map fst (resultado db (omit key GET)))).
Proof.
  assert (Hhas : forall i, has i (filtrar db GET) -> has i (filtrar db (omit key GET))).
  { intros i Hi. apply filtrar_has in Hi. apply filtrar_has.
    split; [tauto|]. now apply qualifies_omit_mono. }
  split; [|split].
  - rewrite !total_imoveis_eq. unfold count.
    rewrite <- !(length_map pk). apply NoDup_incl_length; [apply count_NoDup|].
    intros k Hk. apply in_map_iff in Hk. destruct Hk as (i & <- & Hi).
    apply In_distinct_by in Hi.
    apply (distinct_by_covers pk pk_eqb); [apply pk_eqb_iff|].
    now apply Hhas.
  - intros i Hi. apply resultado_sub, Hhas in Hi.
    apply (resultado_covers (omit key GET)) in Hi. now rewrite map_map.
  - intros Hpk i Hi. apply resultado_has in Hi; [|exact Hpk].
    apply resultado_has; [exact Hpk|].
    split; [tauto|]. now apply qualifies_omit_mono.
Qed.

Lemma filtrar_set_ordenacao db GET v :
  filtrar db (set_param "ordenacao" v GET) = filtrar db GET.
Proof. unfold filtrar. other_keys. reflexivity. Qed.

(** The ordering decides the order only: whatever [ordenacao] is, the
    total and the listings of the result are the same. *)
Theorem ordenacao_keeps_matches db GET v :
  total_imoveis (lista_imoveis db (set_param "ordenacao" v GET))
  = total_imoveis (lista_imoveis db GET)
  /\ (forall i, In (pk i) (map pk (map fst (resultado db (set_param "ordenacao" v GET))))
               <-> In (pk i) (map pk (map fst (resultado db GET)))).
Proof.
  split.
  - now rewrite !total_imoveis_eq, filtrar_set_ordenacao.
  - assert (Hpk : forall G k, In k (map pk (map fst (resultado db G)))
                    <-> In k (map pk (map imovel (filtrar db G)))).
    { intros G k. split; intros Hk; apply in_map_iff in Hk;
        destruct Hk as (j & <- & Hj).
      - apply in_map. now apply resultado_sub.
      - rewrite map_map. now apply resultado_covers. }
    intros i. rewrite !Hpk. now rewrite filtrar_set_ordenacao.
Qed.

Lemma qualifies_split_finalidade GET i :
  qualifies GET i = true
  <-> qualifies (omit "finalidade" GET) i = true
      /\ facet (get "finalidade" GET)
           (fun v => has_preco (fun e => String.eqb (finalidade e) v)) i = true.
Proof.
  unfold qualifies. cbv zeta. other_keys. rewrite !get_omit_eq.
  change (facet None ?p i) with true.
  rewrite !andb_true_iff. tauto.
Qed.

(** The purpose facet asks for a price entry of that purpose and nothing
    else: a listing is in the result exactly when it is in the result of
    the request without [finalidade] and one of its price entries has the
    purpose, whether or not that entry is the one within the price
    bounds. *)
Theorem finalidade_independent db GET i :
  pk_unique db ->
  In i (map fst (resultado db GET))
  <-> In i (map fst (resultado db (omit "finalidade" GET)))
      /\ (forall v, get "finalidade" GET = Some v -> v <> "" ->
            exists e, In e (precos i) /\ finalidade e = v).
Proof.
  intros Hpk. rewrite !resultado_has by exact Hpk.
  rewrite qualifies_split_finalidade.
  assert (Hspec : facet (get "finalidade" GET)
             (fun v => has_preco (fun e => String.eqb (finalidade e) v)) i = true
           <-> (forall v, get "finalidade" GET = Some v -> v <> "" ->
                  exists e, In e (precos i) /\ finalidade e = v)).
  { unfold facet, has_preco. split.
    - intros H v Hv Hne. rewrite Hv in H. apply nonempty_true in Hne.
      rewrite Hne in H. apply existsb_exists in H. destruct H as (e & He & Heq).
      exists e. split; [exact He | now apply String.eqb_eq].
    - intros H. destruct (get "finalidade" GET) as [v|]; [|reflexivity].
      destruct (nonempty v) eqn:Hne; [|reflexivity].
      apply nonempty_true in Hne. destruct (H v eq_refl Hne) as (e & He & Heq).
      apply existsb_exists. exists e. split; [exact He | now apply String.eqb_eq]. }
  rewrite Hspec. tauto.
Qed.
End Narrowing.

(** ** The orderings *)

Section Orderings.
Context {B : Backend}.
Implicit Types (qs : QuerySet) (i : Imovel) (db : Store) (GET : QueryDict).

Lemma sorted_rows_page (R : Imovel -> Imovel -> Prop) db GET :
  StronglySorted (fun a b : Selected => R (fst a) (fst b)) (resultado db GET) ->
  StronglySorted R (map fst (resultado db GET))
  /\ StronglySorted R (page_obj (lista_imoveis db GET)).
Proof.
  intros H. split.
  - now apply StronglySorted_map_fst.
  - rewrite page_obj_eq. now apply StronglySorted_map_fst, StronglySorted_slice.
Qed.

(** Under [ordenacao=mais_recentes] the result, and so every page, is in
    descending order of creation time. *)
Theorem mais_recentes_sorted db GET :
  get_default "ordenacao" "relevancia" GET = "mais_recentes" ->
  StronglySorted (fun a b => criado_em b <= criado_em a) (map fst (resultado db GET))
  /\ StronglySorted (fun a b => criado_em b <= criado_em a)
       (page_obj (lista_imoveis db GET)).
Proof.
  intros Ho. apply sorted_rows_page. unfold resultado. rewrite Ho.
  change (fst (ordenar "mais_recentes" (filtrar db GET)))
    with (sort_by by_criado_desc (select_imovel (filtrar db GET))).
  apply StronglySorted_distinct_by.
  apply (StronglySorted_weaken (fun a b => by_criado_desc a b = true)).
  - intros a b. unfold by_criado_desc. apply Z.leb_le.
  - apply sort_by_sorted; unfold by_criado_desc; intros a b.
    + rewrite !Z.leb_le. lia.
    + intros c. rewrite !Z.leb_le. lia.
Qed.

(** Under [ordenacao=maior_area] the result, and so every page, is in
    descending order of [area_util], when the comparison of the backend
    is a total preorder. *)
Theorem maior_area_sorted db GET :
  (forall a b, num_leb a b = true \/ num_leb b a = true) ->
  (forall a b c, num_leb a b = true -> num_leb b c = true -> num_leb a c = true) ->
  get_default "ordenacao" "relevancia" GET = "maior_area" ->
  StronglySorted (fun a b => num_leb (area_util b) (area_util a) = true)
    (map fst (resultado db GET))
  /\ StronglySorted (fun a b => num_leb (area_util b) (area_util a) = true)
       (page_obj (lista_imoveis db GET)).
Proof.
  intros Htot Htrans Ho.
  apply (sorted_rows_page (fun a b => num_leb (area_util b) (area_util a) = true)).
  unfold resultado. rewrite Ho.
  change (fst (ordenar "maior_area" (filtrar db GET)))
    with (sort_by by_area_desc (select_imovel (filtrar db GET))).
  apply StronglySorted_distinct_by.
  apply (sort_by_sorted by_area_desc); unfold by_area_desc.
  - intros a b. apply Htot.
  - intros a b c Hab Hbc. now apply (Htrans _ (area_util (fst b))).
Qed.

Lemma opt_leb_total :
  (forall a b, num_leb a b = true \/ num_leb b a = true) ->
  forall a b, opt_leb a b = true \/ opt_leb b a = true.
Proof.
  intros Htot [x|] [y|]; simpl; auto.
  - destruct null_smallest; auto.
  - destruct null_smallest; auto.
Qed.

Lemma opt_leb_trans :
  (forall a b c, num_leb a b = true -> num_leb b c = true -> num_leb a c = true) ->
  forall a b c, opt_leb a b = true -> opt_leb b c = true -> opt_leb a c = true.
Proof.
  intros Htrans [x|] [y|] [z|]; simpl; try (destruct null_smallest; simpl; congruence).
  apply Htrans.
Qed.

(** Under [ordenacao=preco_menor] the rows the paginator slices are in
    ascending order of the price column, and under [preco_maior] in
    descending order, when the comparison of the backend is a total
    preorder. *)
Theorem preco_order_sorted db GET :
  (forall a b, num_leb a b = true \/ num_leb b a = true) ->
  (forall a b c, num_leb a b = true -> num_leb b c = true -> num_leb a c = true) ->
  (get_default "ordenacao" "relevancia" GET = "preco_menor" ->
   StronglySorted (fun a b : Selected => opt_leb (snd a) (snd b) = true)
     (resultado db GET))
  /\ (get_default "ordenacao" "relevancia" GET = "preco_maior" ->
      StronglySorted (fun a b : Selected => opt_leb (snd b) (snd a) = true)
        (resultado db GET)).
Proof.
  intros Htot Htrans. split; intros Ho; unfold resultado; rewrite Ho.
  - change (fst (ordenar "preco_menor" (filtrar db GET)))
      with (sort_by by_valor_asc (select_precos_valor (filtrar db GET))).
    apply StronglySorted_distinct_by.
    apply (sort_by_sorted by_valor_asc); unfold by_valor_asc.
    + intros a b. now apply opt_leb_total.
    + intros a b c. now apply opt_leb_trans.
  - change (fst (ordenar "preco_maior" (filtrar db GET)))
      with (sort_by by_valor_desc (select_precos_valor (filtrar db GET))).
    apply StronglySorted_distinct_by.
    apply (sort_by_sorted by_valor_desc); unfold by_valor_desc.
    + intros a b. now apply opt_leb_total.
    + intros a b c Hab Hbc. now apply (opt_leb_trans Htrans _ (snd b)).
Qed.
End Orderings.

(** ** Pages *)

Section Pages.
Context {B : Backend}.
Implicit Types (qs : QuerySet) (i : Imovel) (db : Store) (GET : QueryDict).

Lemma page_items_eq db GET number :
  page_items db GET number
  = map fst (slice (fst (page_bounds (count (filtrar db GET)) number))
                   (snd (page_bounds (count (filtrar db GET)) number))
                   (resultado db GET)).
Proof. unfold page_items. now destruct (page_bounds _ _). Qed.

Lemma num_pages_covers cnt : (cnt <= per_page * num_pages cnt)%nat.
Proof.
  unfold num_pages, per_page.
  pose proof (Nat.div_mod_eq (Nat.max 1 cnt + (12 - 1)) 12) as Hd.
  pose proof (Nat.mod_upper_bound (Nat.max 1 cnt + (12 - 1)) 12) as Hm.
  lia.
Qed.

(** Cutting a list into consecutive slices of 12 and gluing them back. *)
Lemma chunks_concat {A : Type} (k : nat) (l : list A) :
  (List.length l <= 12 * k)%nat ->
  List.concat (map (fun n => firstn 12 (skipn ((n - 1) * 12) l)) (seq 1 k)) = l.
Proof.
  revert l. induction k as [|k IH]; intros l Hl.
  - destruct l; [reflexivity | simpl in Hl; lia].
  - rewrite <- cons_seq, <- seq_shift, map_cons, map_map.
    rewrite concat_cons.
    change ((1 - 1) * 12)%nat with 0%nat. rewrite skipn_O.
    transitivity (firstn 12 l ++ skipn 12 l); [|apply firstn_skipn].
    f_equal.
    etransitivity; [|apply (IH (skipn 12 l)); rewrite length_skipn; lia].
    f_equal. apply map_ext_in. intros n Hn. apply in_seq in Hn.
    rewrite skipn_skipn. do 2 f_equal. lia.
Qed.

Lemma slice_page {A : Type} (l : list A) number :
  slice (fst (page_bounds (List.length l) number))
        (snd (page_bounds (List.length l) number)) l
  = firstn 12 (skipn ((number - 1) * 12) l).
Proof.
  unfold slice. rewrite page_bounds_width. unfold page_bounds, per_page. cbn [fst].
  rewrite <- (length_skipn ((number - 1) * 12) l).
  generalize (skipn ((number - 1) * 12) l). intros m.
  rewrite <- firstn_firstn. now rewrite firstn_all.
Qed.

Lemma NoDup_skipn {A : Type} (n : nat) (l : list A) : NoDup l -> NoDup (skipn n l).
Proof.
  intros H. rewrite <- (firstn_skipn n l) in H. now apply NoDup_app_remove_l in H.
Qed.

Lemma NoDup_firstn {A : Type} (n : nat) (l : list A) : NoDup l -> NoDup (firstn n l).
Proof.
  intros H. rewrite <- (firstn_skipn n l) in H. now apply NoDup_app_remove_r in H.
Qed.

Lemma resultado_length db GET :
  get_default "ordenacao" "relevancia" GET <> "preco_menor" ->
  get_default "ordenacao" "relevancia" GET <> "preco_maior" ->
  List.length (resultado db GET) = count (filtrar db GET).
Proof.
  intros H1 H2. unfold count.
  rewrite <- (length_map (fun x : Selected => pk (fst x))), <- (length_map pk).
  apply Permutation_length, NoDup_Permutation.
  - now apply resultado_NoDup.
  - apply count_NoDup.
  - intros k. split; intros Hk; apply in_map_iff in Hk; destruct Hk as (x & <- & Hx).
    + apply (distinct_by_covers pk pk_eqb); [apply pk_eqb_iff|].
      apply resultado_sub. now apply in_map.
    + apply In_distinct_by in Hx. now apply resultado_covers.
Qed.

(** Under every ordering but the two by price, a listing is at most once
    among the rows the paginator slices, and there are as many rows as
    the total reported. *)
Theorem imovel_order_once db GET :
  get_default "ordenacao" "relevancia" GET <> "preco_menor" ->
  get_default "ordenacao" "relevancia" GET <> "preco_maior" ->
  NoDup (map pk (map fst (resultado db GET)))
  /\ List.length (resultado db GET) = total_imoveis (lista_imoveis db GET)
  /\ NoDup (map pk (page_obj (lista_imoveis db GET))).
Proof.
  intros H1 H2.
  assert (Hnd : NoDup (map pk (map fst (resultado db GET)))).
  { rewrite map_map. now apply resultado_NoDup. }
  split; [exact Hnd|]. split.
  - rewrite total_imoveis_eq. now apply resultado_length.
  - rewrite page_obj_eq. unfold slice. rewrite <- !firstn_map, <- !skipn_map.
    now apply NoDup_firstn, NoDup_skipn.
Qed.

(** Under every ordering but the two by price, the pages 1 to
    [num_pages], one after the other, are the result: every matching
    listing is on one page, in order. The page the view returns is the
    page of its number. *)
Theorem pages_cover_result db GET :
  get_default "ordenacao" "relevancia" GET <> "preco_menor" ->
  get_default "ordenacao" "relevancia" GET <> "preco_maior" ->
  List.concat (map (page_items db GET)
                 (seq 1 (num_pages (total_imoveis (lista_imoveis db GET)))))
  = map fst (resultado db GET)
  /\ page_obj (lista_imoveis db GET)
     = page_items db GET (page_number (lista_imoveis db GET)).
Proof.
  intros H1 H2. split.
  - rewrite total_imoveis_eq.
    rewrite (map_ext (page_items db GET)
               (fun n => map fst (firstn 12 (skipn ((n - 1) * 12) (resultado db GET))))).
    + rewrite <- (map_map (fun n => firstn 12 (skipn ((n - 1) * 12) (resultado db GET)))
                          (map fst)).
      rewrite <- concat_map. f_equal. apply chunks_concat.
      rewrite resultado_length by assumption.
      pose proof (num_pages_covers (count (filtrar db GET))) as Hc.
      unfold per_page in Hc. exact Hc.
    + intros n. rewrite page_items_eq.
      rewrite <- (resultado_length db GET H1 H2). now rewrite slice_page.
  - rewrite page_obj_eq, page_items_eq. now rewrite total_imoveis_eq.
Qed.

Lemma num_pages_ge_1 cnt : (1 <= num_pages cnt)%nat.
Proof. unfold num_pages, per_page. apply Nat.div_le_lower_bound; lia. Qed.

(** [get_page] never fails: the page number is between 1 and the last
    page; no number or one that is no integer gives page 1, and an
    integer outside the range gives the last page. *)
Theorem page_number_clamped db GET :
  let c := lista_imoveis db GET in
  let last := num_pages (total_imoveis c) in
  (1 <= page_number c <= last)%nat
  /\ (get "page" GET = None -> page_number c = 1%nat)
  /\ (forall s, get "page" GET = Some s -> py_int s = None -> page_number c = 1%nat)
  /\ (forall s n, get "page" GET = Some s -> py_int s = Some n ->
        n < 1 \/ Z.of_nat last < n -> page_number c = last)
  /\ (forall s n, get "page" GET = Some s -> py_int s = Some n ->
        1 <= n <= Z.of_nat last -> page_number c = Z.to_nat n).
Proof.
  cbv zeta. rewrite page_number_eq, total_imoveis_eq.
  set (cnt := count (filtrar db GET)).
  pose proof (num_pages_ge_1 cnt) as Hpos.
  unfold get_page_number.
  split; [|split; [|split; [|split]]].
  - destruct (get "page" GET) as [s|]; [|lia].
    destruct (py_int s) as [n|]; [|lia].
    destruct (n <? 1) eqn:E1; [lia|].
    destruct (Z.of_nat (num_pages cnt) <? n) eqn:E2; [lia|].
    apply Z.ltb_ge in E1, E2. lia.
  - now intros ->.
  - intros s -> Hp. now rewrite Hp.
  - intros s n -> Hp Hn. rewrite Hp.
    destruct (n <? 1) eqn:E1; [reflexivity|].
    destruct (Z.of_nat (num_pages cnt) <? n) eqn:E2; [reflexivity|].
    apply Z.ltb_ge in E1, E2. lia.
  - intros s n -> Hp Hn. rewrite Hp.
    destruct (n <? 1) eqn:E1; [apply Z.ltb_lt in E1; lia|].
    destruct (Z.of_nat (num_pages cnt) <? n) eqn:E2; [apply Z.ltb_lt in E2; lia|].
    reflexivity.
Qed.

(** When nothing matches, whatever page is asked for, the view returns
    page 1, and it is empty. *)
Theorem empty_result_page db GET :
  total_imoveis (lista_imoveis db GET) = 0%nat ->
  page_number (lista_imoveis db GET) = 1%nat
  /\ page_obj (lista_imoveis db GET) = [].
Proof.
  intros H0.
  assert (Hn : page_number (lista_imoveis db GET) = 1%nat).
  { rewrite page_number_eq. rewrite total_imoveis_eq in H0. rewrite H0.
    unfold get_page_number. destruct (get "page" GET) as [s|]; [|reflexivity].
    destruct (py_int s) as [n|]; [|reflexivity].
    change (num_pages 0) with 1%nat.
    destruct (n <? 1) eqn:E1; [reflexivity|].
    destruct (Z.of_nat 1 <? n) eqn:E2; [reflexivity|].
    apply Z.ltb_ge in E1, E2. lia. }
  split; [exact Hn|].
  rewrite page_obj_eq, Hn, H0. reflexivity.
Qed.
End Pages.

(** ** The detail view, the home page, the admin columns *)

Section OtherViewFacts.
Context {B : Backend}.
Implicit Types (i j : Imovel) (db : Store).

Lemma status_eqb_ATIVO i : status_eqb (status i) ATIVO = true <-> status i = ATIVO.
Proof. destruct (status i); simpl; split; congruence. Qed.

Lemma length_filter_firstn_all {A : Type} (n : nat) (l : list A) :
  (List.length (firstn n l) < n)%nat -> firstn n l = l.
Proof.
  intros H. apply firstn_all2. rewrite length_firstn in H. lia.
Qed.

(** The similar listings of the detail view: at most four, each an
    active listing of the store with the type and the city of the listing
    shown and another key, never the listing itself; when fewer than four
    are shown, no such listing is missing. *)
Theorem similares_spec db key c :
  detalhe_imovel db key = Rendered c ->
  (List.length (imoveis_similares c) <= 4)%nat
  /\ (forall j, In j (imoveis_similares c) ->
        In j db /\ status j = ATIVO /\ tipo j = tipo (d_imovel c)
        /\ cidade j = cidade (d_imovel c) /\ pk j <> pk (d_imovel c))
  /\ ~ In (d_imovel c) (imoveis_similares c)
  /\ ((List.length (imoveis_similares c) < 4)%nat ->
      forall j, In j db -> status j = ATIVO -> tipo j = tipo (d_imovel c) ->
        cidade j = cidade (d_imovel c) -> pk j <> pk (d_imovel c) ->
        In j (imoveis_similares c)).
Proof.
  unfold detalhe_imovel. destruct (get_object_or_404 db key) as [i| |]; try discriminate.
  set (p := fun j => String.eqb (tipo j) (tipo i) && String.eqb (cidade j) (cidade i)
                     && status_eqb (status j) ATIVO && negb (Z.eqb (pk j) (pk i))).
  set (sims := firstn 4 (filter p db)).
  intros H. injection H as <-. cbn [imoveis_similares d_imovel]. unfold sims.
  assert (Hp : forall j, p j = true <->
            status j = ATIVO /\ tipo j = tipo i /\ cidade j = cidade i /\ pk j <> pk i).
  { intros j. unfold p.
    rewrite !andb_true_iff, negb_true_iff, !String.eqb_eq, Z.eqb_neq, status_eqb_ATIVO.
    tauto. }
  assert (Hin : forall j, In j (firstn 4 (filter p db)) ->
            In j db /\ status j = ATIVO /\ tipo j = tipo i /\ cidade j = cidade i
            /\ pk j <> pk i).
  { intros j Hj. apply In_firstn, filter_In in Hj. destruct Hj as [Hdb Hpj].
    apply Hp in Hpj. tauto. }
  split; [apply firstn_le_length|]. split; [exact Hin|]. split.
  - intros Hi. apply Hin in Hi. tauto.
  - intros Hlen j Hdb Hs Ht Hc Hk.
    rewrite (length_filter_firstn_all 4 (filter p db) Hlen).
    apply filter_In. split; [exact Hdb|]. apply Hp. tauto.
Qed.

Lemma StronglySorted_app_inv {A : Type} (R : A -> A -> Prop) (l1 l2 : list A) :
  StronglySorted R (l1 ++ l2) -> forall x y, In x l1 -> In y l2 -> R x y.
Proof.
  induction l1 as [|a l1 IH]; simpl; [tauto|].
  intros H x y [->|Hx] Hy.
  - inversion H as [|? ? _ Hall]; subst. rewrite Forall_forall in Hall.
    apply Hall, in_or_app. now right.
  - inversion H; subst. now apply IH.
Qed.

(** The featured listings of the home page: the six most recently
    created active listings (all of them when there are fewer), newest
    first; no active listing left out is newer than a featured one. *)
Theorem imoveis_destaque_spec db :
  List.length (imoveis_destaque db)
  = Nat.min 6 (List.length (filter (fun i => status_eqb (status i) ATIVO) db))
  /\ (forall i, In i (imoveis_destaque db) -> In i db /\ status i = ATIVO)
  /\ StronglySorted (fun a b => criado_em b <= criado_em a) (imoveis_destaque db)
  /\ (forall i j, In i (imoveis_destaque db) -> In j db -> status j = ATIVO ->
        ~ In j (imoveis_destaque db) -> criado_em j <= criado_em i).
Proof.
  unfold imoveis_destaque.
  set (ativos := filter (fun i => status_eqb (status i) ATIVO) db).
  assert (Hsorted : StronglySorted (fun a b => criado_em b <= criado_em a)
                      (sort_by mais_novo_primeiro ativos)).
  { apply (StronglySorted_weaken (fun a b => mais_novo_primeiro a b = true)).
    - intros a b. unfold mais_novo_primeiro. apply Z.leb_le.
    - apply sort_by_sorted; unfold mais_novo_primeiro; intros a b.
      + rewrite !Z.leb_le. lia.
      + intros c. rewrite !Z.leb_le. lia. }
  split; [|split; [|split]].
  - now rewrite length_firstn, length_sort_by.
  - intros i Hi. apply In_firstn, In_sort_by, filter_In in Hi.
    now rewrite status_eqb_ATIVO in Hi.
  - now apply StronglySorted_firstn.
  - intros i j Hi Hj Hs Hnot.
    assert (Hjs : In j (sort_by mais_novo_primeiro ativos)).
    { apply In_sort_by, filter_In. split; [exact Hj | now apply status_eqb_ATIVO]. }
    rewrite <- (firstn_skipn 6 (sort_by mais_novo_primeiro ativos)) in Hjs, Hsorted.
    apply in_app_or in Hjs. destruct Hjs as [Hjs|Hjs]; [contradiction|].
    exact (StronglySorted_app_inv _ _ _ Hsorted i j Hi Hjs).
Qed.

(** The cities of the filter form: each city of an active listing once,
    no other city, in the order of the collation when that is a total
    preorder. *)
Theorem cidades_spec collate_leb db :
  NoDup (cidades collate_leb db)
  /\ (forall c, In c (cidades collate_leb db)
        <-> exists i, In i db /\ status i = ATIVO /\ cidade i = c)
  /\ ((forall a b, collate_leb a b = true \/ collate_leb b a = true) ->
      (forall a b c, collate_leb a b = true -> collate_leb b c = true ->
                     collate_leb a c = true) ->
      StronglySorted (fun a b => collate_leb a b = true) (cidades collate_leb db)).
Proof.
  unfold cidades.
  set (nomes := map (fun i => cidade i) (filter (fun i => status_eqb (status i) ATIVO) db)).
  assert (Hnomes : forall c, In c nomes
            <-> exists i, In i db /\ status i = ATIVO /\ cidade i = c).
  { intros c. unfold nomes. rewrite in_map_iff. split.
    - intros (i & <- & Hi). apply filter_In in Hi. rewrite status_eqb_ATIVO in Hi.
      exists i. tauto.
    - intros (i & Hi & Hs & <-). exists i. split; [reflexivity|].
      apply filter_In. now rewrite status_eqb_ATIVO. }
  split; [|split].
  - apply (Permutation_NoDup (sort_by_perm collate_leb _)).
    rewrite <- (map_id (distinct_by String.eqb nomes)).
    apply distinct_by_NoDup. intros a b _ _ ->. apply String.eqb_refl.
  - intros c. rewrite In_sort_by, <- Hnomes. split.
    + apply In_distinct_by.
    + intros Hc. rewrite <- (map_id (distinct_by String.eqb nomes)).
      apply (distinct_by_covers (fun s : string => s) String.eqb nomes c);
        [intros a b; apply String.eqb_eq | exact Hc].
  - intros Htot Htrans. now apply sort_by_sorted.
Qed.

Lemma length_py_take n s : String.length (py_take n s) = Nat.min n (String.length s).
Proof.
  revert s. induction n as [|n IH]; intros [|c t]; simpl; try reflexivity.
  now rewrite IH.
Qed.

Lemma length_append (a b : string) :
  String.length (a ++ b)%string = (String.length a + String.length b)%nat.
Proof. induction a as [|c a IH]; simpl; [reflexivity | now rewrite IH]. Qed.

Lemma py_take_append n (a b : string) :
  String.length a = n -> py_take n (a ++ b)%string = a.
Proof.
  revert a. induction n as [|n IH]; intros [|c a] H; simpl in *; try discriminate;
    try reflexivity.
  f_equal. apply IH. lia.
Qed.

(** The shortened title of the listing table: a title of at most 50
    characters is shown whole; a longer one is cut to its first 50
    characters followed by three dots, 53 characters in all. Shortening
    a shortened title changes nothing. *)
Theorem titulo_resumido_spec (obj obj' : Imovel) :
  (String.length (titulo_resumido obj) <= 53)%nat
  /\ ((String.length (titulo obj) <= 50)%nat -> titulo_resumido obj = titulo obj)
  /\ ((50 < String.length (titulo obj))%nat ->
      titulo_resumido obj = (py_take 50 (titulo obj) ++ "...")%string
      /\ String.length (titulo_resumido obj) = 53%nat)
  /\ (titulo obj' = titulo_resumido obj -> titulo_resumido obj' = titulo_resumido obj).
Proof.
  assert (Hlong : (50 < String.length (titulo obj))%nat ->
            titulo_resumido obj = (py_take 50 (titulo obj) ++ "...")%string
            /\ String.length (titulo_resumido obj) = 53%nat).
  { intros H. unfold titulo_resumido. apply Nat.ltb_lt in H as Hb. rewrite Hb.
    split; [reflexivity|]. rewrite length_append, length_py_take.
    change (String.length "...") with 3%nat. lia. }
  assert (Hshort : (String.length (titulo obj) <= 50)%nat ->
            titulo_resumido obj = titulo obj).
  { intros H. unfold titulo_resumido. apply Nat.ltb_ge in H. now rewrite H. }
  split; [|split; [exact Hshort|split; [exact Hlong|]]].
  - destruct (Nat.le_gt_cases (String.length (titulo obj)) 50) as [H|H].
    + rewrite (Hshort H). lia.
    + destruct (Hlong H) as [_ ->]. lia.
  - intros Ht. destruct (Nat.le_gt_cases (String.length (titulo obj)) 50) as [H|H].
    + rewrite (Hshort H) in *. unfold titulo_resumido at 1. rewrite Ht.
      apply Nat.ltb_ge in H. now rewrite H.
    + destruct (Hlong H) as [Heq Hlen]. unfold titulo_resumido at 1.
      rewrite Ht, Hlen. change (50 <? 53)%nat with true. cbv iota.
      rewrite Heq at 1. rewrite py_take_append; [now symmetry|].
      rewrite length_py_take. lia.
Qed.

Lemma valor_formatado_head fmt (p : PrecoPorFinalidade) :
  exists rest, valor_formatado fmt p = String "R" rest.
Proof.
  unfold valor_formatado. destruct (String.eqb (finalidade p) "temporada");
    eexists; reflexivity.
Qed.

(** The price summary of the listing table: a dash exactly when the
    listing has no price; the text of [valor_formatado] for a single
    price; the first two prices joined by [' | '] for two, and the same
    followed by three dots whenever there are more, whatever they are. *)
Theorem preco_resumo_spec fmt (obj : Imovel) :
  (preco_resumo fmt obj = "-" <-> precos obj = [])
  /\ (forall p, precos obj = [p] -> preco_resumo fmt obj = valor_formatado fmt p)
  /\ (forall p q, precos obj = [p; q] ->
        preco_resumo fmt obj
        = (valor_formatado fmt p ++ " | " ++ valor_formatado fmt q)%string)
  /\ (forall p q r rest, precos obj = p :: q :: r :: rest ->
        preco_resumo fmt obj
        = ((valor_formatado fmt p ++ " | " ++ valor_formatado fmt q) ++ "...")%string).
Proof.
  unfold preco_resumo. split; [|split; [|split]].
  - destruct (precos obj) as [|p ps]; [tauto|].
    split; [|discriminate]. intros H. exfalso.
    destruct (valor_formatado_head fmt p) as [rest Hp].
    cbv zeta in H. destruct ps as [|q ps]; simpl firstn in H; simpl map in H.
    + simpl in H. rewrite Hp in H. discriminate H.
    + cbn [String.concat] in H. rewrite Hp in H.
      destruct (2 <? List.length (p :: q :: ps))%nat; simpl in H; discriminate H.
  - intros p ->. reflexivity.
  - intros p q ->. reflexivity.
  - intros p q r rest ->. reflexivity.
Qed.
End OtherViewFacts.

(** * The further properties on the reference backend *)

Module MaisCasos.
Import Ref Exemplos MaisExemplos.

Ltac pk_unique_tac :=
  unfold pk_unique; simpl;
  repeat (constructor; [simpl; intuition discriminate|]); constructor.

Lemma Qle_bool_total (a b : QArith_base.Q) :
  QArith_base.Qle_bool a b = true \/ QArith_base.Qle_bool b a = true.
Proof.
  rewrite !QArith_base.Qle_bool_iff.
  destruct (QArith_base.Qlt_le_dec a b) as [H|H];
    [left; now apply QArith_base.Qlt_le_weak | now right].
Qed.

Lemma Qle_bool_trans (a b c : QArith_base.Q) :
  QArith_base.Qle_bool a b = true -> QArith_base.Qle_bool b c = true ->
  QArith_base.Qle_bool a c = true.
Proof.
  rewrite !QArith_base.Qle_bool_iff. apply QArith_base.Qle_trans.
Qed.

Lemma binary_leb_total (a b : string) :
  binary_leb a b = true \/ binary_leb b a = true.
Proof.
  revert b. induction a as [|x s IH]; intros [|y t]; simpl; auto.
  destruct (IH t) as [H|H]; rewrite H;
    destruct (Nat.ltb_spec (nat_of_ascii x) (nat_of_ascii y)),
             (Nat.ltb_spec (nat_of_ascii y) (nat_of_ascii x)),
             (Nat.eqb_spec (nat_of_ascii x) (nat_of_ascii y)),
             (Nat.eqb_spec (nat_of_ascii y) (nat_of_ascii x));
    simpl; auto; lia.
Qed.

Lemma binary_leb_trans (a b c : string) :
  binary_leb a b = true -> binary_leb b c = true -> binary_leb a c = true.
Proof.
  revert b c. induction a as [|x s IH]; intros [|y t] [|z u]; simpl; auto;
    try discriminate.
  rewrite !orb_true_iff, !andb_true_iff, !Nat.ltb_lt, !Nat.eqb_eq.
  intros [H1|[H1 H1']] [H2|[H2 H2']]; try (left; lia).
  right. split; [lia|]. now apply (IH t).
Qed.

Lemma empty_facet_ignored_witness :
  search_result db_mista GET_tipo_vazio
  = search_result db_mista (omit "tipo" GET_tipo_vazio).
Proof.
  apply (empty_facet_ignored db_mista GET_tipo_vazio "tipo").
  - simpl. tauto.
  - reflexivity.
Defined.

Lemma blank_busca_ignored_witness :
  search_result db_mista GET_busca_branca
  = search_result db_mista (omit "busca" GET_busca_branca)
  /\ f_busca (filtros_aplicados (lista_imoveis db_mista GET_busca_branca)) = "".
Proof.
  apply (blank_busca_ignored db_mista GET_busca_branca). reflexivity.
Defined.

Lemma unknown_key_ignored_witness :
  lista_imoveis db_mista (omit "utm_source" GET_utm) = lista_imoveis db_mista GET_utm.
Proof.
  apply (unknown_key_ignored db_mista GET_utm "utm_source").
  unfold chaves_lidas. simpl. intuition discriminate.
Defined.

Lemma finalidade_independent_witness :
  In casa_c (map fst (resultado db_mista GET_venda_barata))
  <-> In casa_c (map fst (resultado db_mista (omit "finalidade" GET_venda_barata)))
      /\ (forall v, get "finalidade" GET_venda_barata = Some v -> v <> "" ->
            exists e, In e (precos casa_c) /\ finalidade e = v).
Proof.
  apply (finalidade_independent db_mista GET_venda_barata casa_c). pk_unique_tac.
Defined.

(** A listing for sale at 1000 and for rent at 100 is returned for
    purpose sale with a maximum price of 500. *)
Example finalidade_scenario :
  map pk (page_obj (lista_imoveis [casa_c] GET_venda_barata)) = [3].
Proof. reflexivity. Qed.

Lemma mais_recentes_sorted_witness :
  StronglySorted (fun a b => criado_em b <= criado_em a)
    (map fst (resultado db_mista GET_mais_recentes))
  /\ StronglySorted (fun a b => criado_em b <= criado_em a)
       (page_obj (lista_imoveis db_mista GET_mais_recentes)).
Proof.
  apply (mais_recentes_sorted db_mista GET_mais_recentes). reflexivity.
Defined.

Lemma maior_area_sorted_witness :
  StronglySorted (fun a b => num_leb (area_util b) (area_util a) = true)
    (map fst (resultado db_mista GET_maior_area))
  /\ StronglySorted (fun a b => num_leb (area_util b) (area_util a) = true)
       (page_obj (lista_imoveis db_mista GET_maior_area)).
Proof.
  apply (maior_area_sorted db_mista GET_maior_area).
  - exact Qle_bool_total.
  - exact Qle_bool_trans.
  - reflexivity.
Defined.

Lemma preco_order_sorted_witness :
  (get_default "ordenacao" "relevancia" GET_preco_maior = "preco_menor" ->
   StronglySorted (fun a b : Selected => opt_leb (snd a) (snd b) = true)
     (resultado db_mista GET_preco_maior))
  /\ (get_default "ordenacao" "relevancia" GET_preco_maior = "preco_maior" ->
      StronglySorted (fun a b : Selected => opt_leb (snd b) (snd a) = true)
        (resultado db_mista GET_preco_maior)).
Proof.
  apply (preco_order_sorted db_mista GET_preco_maior).
  - exact Qle_bool_total.
  - exact Qle_bool_trans.
Defined.

Lemma imovel_order_once_witness :
  NoDup (map pk (map fst (resultado db_tres GET_so_faixa)))
  /\ List.length (resultado db_tres GET_so_faixa)
     = total_imoveis (lista_imoveis db_tres GET_so_faixa)
  /\ NoDup (map pk (page_obj (lista_imoveis db_tres GET_so_faixa))).
Proof.
  apply (imovel_order_once db_tres GET_so_faixa); vm_compute; discriminate.
Defined.

Lemma pages_cover_result_witness :
  List.concat (map (page_items db_treze GET_page2)
                 (seq 1 (num_pages (total_imoveis (lista_imoveis db_treze GET_page2)))))
  = map fst (resultado db_treze GET_page2)
  /\ page_obj (lista_imoveis db_treze GET_page2)
     = page_items db_treze GET_page2 (page_number (lista_imoveis db_treze GET_page2)).
Proof.
  apply (pages_cover_result db_treze GET_page2); vm_compute; discriminate.
Defined.

Lemma empty_result_page_witness :
  page_number (lista_imoveis db_mista GET_cidade_ausente) = 1%nat
  /\ page_obj (lista_imoveis db_mista GET_cidade_ausente) = [].
Proof.
  apply (empty_result_page db_mista GET_cidade_ausente). reflexivity.
Defined.

Lemma similares_spec_witness :
  (List.length (imoveis_similares similares_casa_a) <= 4)%nat
  /\ (forall j, In j (imoveis_similares similares_casa_a) ->
        In j db_mista /\ status j = ATIVO /\ tipo j = tipo (d_imovel similares_casa_a)
        /\ cidade j = cidade (d_imovel similares_casa_a)
        /\ pk j <> pk (d_imovel similares_casa_a))
  /\ ~ In (d_imovel similares_casa_a) (imoveis_similares similares_casa_a)
  /\ ((List.length (imoveis_similares similares_casa_a) < 4)%nat ->
      forall j, In j db_mista -> status j = ATIVO ->
        tipo j = tipo (d_imovel similares_casa_a) ->
        cidade j = cidade (d_imovel similares_casa_a) ->
        pk j <> pk (d_imovel similares_casa_a) ->
        In j (imoveis_similares similares_casa_a)).
Proof.
  apply (similares_spec db_mista 1 similares_casa_a). reflexivity.
Defined.

Lemma cidades_spec_witness :
  cidades binary_leb (casa_titulo_longo :: db_mista) = ["Shelbyville"; "Springfield"]
  /\ StronglySorted (fun a b => binary_leb a b = true)
       (cidades binary_leb (casa_titulo_longo :: db_mista)).
Proof.
  split; [reflexivity|].
  apply (proj2 (proj2 (cidades_spec binary_leb (casa_titulo_longo :: db_mista)))).
  - exact binary_leb_total.
  - exact binary_leb_trans.
Defined.

(** A title of 60 characters is cut to 50 and three dots. *)
Example titulo_resumido_scenario :
  String.length (titulo casa_titulo_longo) = 60%nat
  /\ titulo_resumido casa_titulo_longo
     = "Apartamento amplo com tres quartos e varanda no ce..."
  /\ titulo_resumido casa_a = "Casa".
Proof. repeat split; reflexivity. Qed.
End MaisCasos.
